(** * QCEC: the decision-diagram equivalence checking core

    A shallow embedding of
    - [src/checker/EquivalenceChecker.cpp] (constructor, [equals], [run],
      [initialize], [execute], [finish], [postprocess], [checkEquivalence]),
    - [src/checker/dd/applicationscheme/LookaheadApplicationScheme.cpp]
      ([operator()]),
    - [src/checker/DDSimulationChecker.cpp],
    and of the properties the specification states about them.

    C++ [double]s are binary64 primitive floats; [size_t] counters are [nat];
    exceptions and failed assertions are the [Err] results of a small error
    monad; the loop of [execute] is a fuelled fixpoint.  The DD package and
    the task manager are libraries the checker merely calls: they are
    interfaces (type classes) here, with one small instance at the end of the
    definitions on which statements are evaluated. *)

From Stdlib Require Import Bool Arith List String Lia.
From Stdlib Require Import PrimFloat.
From Stdlib Require FloatAxioms SpecFloat ZArith.
Import ListNotations.

Set Implicit Arguments.

(** ** Results of calls that may fail *)

(** The two ways in which the embedded code fails: a [throw
    std::runtime_error(msg)] and a failed [assert(expr)]. *)
Inductive Failure :=
| runtime_error (what : string)
| assertion_failed (expr : string).

Inductive Result (A : Type) :=
| Ok (a : A)
| Err (f : Failure).
Arguments Ok {A} a.
Arguments Err {A} f.

Definition bind {A B} (m : Result A) (k : A -> Result B) : Result B :=
  match m with
  | Ok a => k a
  | Err f => Err f
  end.

Notation "x <- m ;; k" := (bind m (fun x => k))
  (at level 61, m at next level, right associativity).
Notation "' pat <- m ;; k" := (bind m (fun x => match x with pat => k end))
  (at level 61, pat pattern, m at next level, right associativity).

(** [assert(cond)], tagged with the text of the asserted expression. *)
Definition assert (cond : bool) (expr : string) : Result unit :=
  if cond then Ok tt else Err (assertion_failed expr).

(** The error kinds of the specification (section 7) that the embedded code
    can raise, and the failure each one stands for in the source: the
    exception the constructor throws, and the two assertions that open the
    lookahead scheme's [operator()]. *)
Inductive ErrorKind :=
| UnsupportedSchemeForDDType
| UninitializedScheme.

Definition lookahead_only_for_matrices : string :=
  "Lookahead application scheme can only be used for matrices.".

Definition errorKind (f : Failure) : option ErrorKind :=
  match f with
  | runtime_error what =>
      if String.eqb what lookahead_only_for_matrices
      then Some UnsupportedSchemeForDDType else None
  | assertion_failed expr =>
      if String.eqb expr "internalState != nullptr"
         || String.eqb expr "package != nullptr"
      then Some UninitializedScheme else None
  end.

Definition raises {A} (res : Result A) (k : ErrorKind) : Prop :=
  exists f, res = Err f /\ errorKind f = Some k.

(** ** Verdicts and configuration *)

Inductive EquivalenceCriterion :=
| NotEquivalent
| Equivalent
| EquivalentUpToGlobalPhase
| EquivalentUpToPhase
| NoInformation
| ProbablyEquivalent.

Inductive ApplicationSchemeType :=
| OneToOne_t
| Proportional_t
| Lookahead_t
| GateCost_t.

Inductive StateType :=
| ComputationalBasis
| Random1QBasis
| Stabilizer.

(** Key of the gate-cost table: gate mnemonic and number of controls. *)
Definition CostFunction := string -> nat -> nat.

Record Application := {
  scheme : ApplicationSchemeType;
  useProfile : bool;
  profileLocation : string;
  costFunction : CostFunction
}.

Record Functionality := { traceThreshold : float }.

Record Simulation := {
  fidelityThreshold : float;
  stateType : StateType
}.

Record Configuration := {
  application : Application;
  functionality : Functionality;
  simulation : Simulation
}.

(** ** Decision diagrams *)

(** The template argument [DDType] of the checker: [qc::VectorDD] or
    [qc::MatrixDD]. *)
Inductive DDType := VectorDD | MatrixDD.

(** A node pointer is an address in the package's unique table. *)
Definition NodePtr := nat.

(** A DD handle: the node pointer [p] and the top edge weight [w]. *)
Record Edge (Complex : Type) (T : DDType) := mkEdge {
  p : NodePtr;
  w : Complex
}.

(** [std::make_unique<dd::Package>(nqubits)]: the package object a checker
    owns, named by the register width it was created for. *)
Inductive PackagePtr := make_unique_Package (nqubits : nat).

(** The value [dd->innerProduct] returns. *)
Record ComplexValue := { r : float; i : float }.

(** The capability contract of the DD package (specification, section 6),
    as far as the embedded code calls it.  [ident] reads the flag of the node
    a pointer designates. *)
Class Package := {
  Complex : Type;
  approximatelyEquals : Complex -> Complex -> bool;
  ident : NodePtr -> bool;
  multiply : Edge Complex MatrixDD -> Edge Complex MatrixDD -> Edge Complex MatrixDD;
  conjugateTranspose : Edge Complex MatrixDD -> Edge Complex MatrixDD;
  isCloseToIdentity : Edge Complex MatrixDD -> float -> bool;
  innerProduct : Edge Complex VectorDD -> Edge Complex VectorDD -> ComplexValue;
  size : Edge Complex MatrixDD -> nat;
  makeZeroState : nat -> Edge Complex VectorDD;
  (* a value-initialised handle, [DDType{}] *)
  defaultDD : forall T, Edge Complex T;
  getMaxActiveNodes : DDType -> nat
}.

Definition DD `{Package} (T : DDType) : Type := Edge Complex T.

(** ** [EquivalenceChecker<DDType>::equals] *)

(** The verdict both flavours give once the diagrams are known to agree:
    differing top edge weights mean a global phase. *)
Definition weightVerdict `{Package} {T} (e f : DD T) : EquivalenceCriterion :=
  if negb (approximatelyEquals (w e) (w f)) then EquivalentUpToGlobalPhase
  else Equivalent.

(** The [if constexpr (std::is_same_v<DDType, qc::MatrixDD>)] branch. *)
Definition equalsMatrix `{Package} (configuration : Configuration)
    (e f : DD MatrixDD) : EquivalenceCriterion :=
  let isClose :=
    if ident (p e) then
      isCloseToIdentity f (traceThreshold (functionality configuration))
    else if ident (p f) then
      isCloseToIdentity e (traceThreshold (functionality configuration))
    else
      let g := multiply e (conjugateTranspose f) in
      isCloseToIdentity g (traceThreshold (functionality configuration)) in
  if isClose then weightVerdict e f else NotEquivalent.

(** The [else] branch, taken for vectors. *)
Definition equalsVector `{Package} (configuration : Configuration)
    (e f : DD VectorDD) : EquivalenceCriterion :=
  let innerProduct := innerProduct e f in
  if ltb (abs (sub (r innerProduct) 1%float))
         (fidelityThreshold (simulation configuration)) then Equivalent
  else
    let fidelity := add (mul (r innerProduct) (r innerProduct))
                        (mul (i innerProduct) (i innerProduct)) in
    if ltb (abs (sub fidelity 1%float))
           (fidelityThreshold (simulation configuration)) then
      EquivalentUpToPhase
    else NotEquivalent.

Definition equals `{Package} (configuration : Configuration) {T : DDType}
    (e f : DD T) : EquivalenceCriterion :=
  if Nat.eqb (p e) (p f) then weightVerdict e f
  else
    match T return DD T -> DD T -> EquivalenceCriterion with
    | MatrixDD => equalsMatrix configuration
    | VectorDD => equalsVector configuration
    end e f.

(** ** Circuits *)

Inductive Operation :=
| SWAP (q0 q1 : nat)
| Gate (name : string) (controls : list nat) (target : nat).

(** Modelled from the spec: the circuit class [qc::QuantumComputation]
    belongs to a library outside [src/].  Section 3 gives a circuit an
    ordered sequence of gates, a total qubit count and an ancillary qubit
    set (one flag per qubit here); the two getters the checker calls read
    them. *)
Record QuantumComputation := {
  ops : list Operation;
  totalQubits : nat;
  ancillary : list bool
}.

Definition getNqubits (qc : QuantumComputation) : nat := totalQubits qc.

Definition getNqubitsWithoutAncillae (qc : QuantumComputation) : nat :=
  totalQubits qc - count_occ bool_dec (ancillary qc) true.

(** ** Task managers *)

(** [TaskManager<DDType>] is declared and defined outside [src/]; the
    checker and the lookahead scheme reach it through these member functions
    only.  [getDD] and [getInverseDD] return the matrix diagram of the gate
    under the cursor whatever the flavour of the running diagram. *)
Class TaskManagerOps `{Package} := {
  TaskManager : DDType -> Type;
  TaskManager_new : forall T, QuantumComputation -> PackagePtr -> TaskManager T;
  finished : forall {T}, TaskManager T -> bool;
  applySwapOperations : forall {T}, TaskManager T -> TaskManager T;
  advance : forall {T}, nat -> TaskManager T -> TaskManager T;
  advanceIterator : forall {T}, TaskManager T -> TaskManager T;
  getDD : forall {T}, TaskManager T -> DD MatrixDD;
  getInverseDD : forall {T}, TaskManager T -> DD MatrixDD;
  getInternalState : forall {T}, TaskManager T -> DD T;
  setInternalState : forall {T}, DD T -> TaskManager T -> TaskManager T;
  tm_incRef : forall {T}, TaskManager T -> TaskManager T;
  tm_decRef : forall {T}, TaskManager T -> TaskManager T;
  tm_finish : forall {T}, TaskManager T -> TaskManager T;
  changePermutation : forall {T}, TaskManager T -> TaskManager T;
  reduceAncillae : forall {T}, TaskManager T -> TaskManager T;
  reduceGarbage : forall {T}, TaskManager T -> TaskManager T
}.

(** ** The lookahead application scheme *)

(** The reference-count traffic a scheme sends to the package, oldest call
    first. *)
Inductive PackageCall `{Package} :=
| incRef (e : DD MatrixDD)
| decRef (e : DD MatrixDD)
| garbageCollect.

(** A nullable pointer member of the scheme.  Its only writers are
    [setInternalState(functionality)] and [setPackage(dd.get())] in the
    constructor of [DDAlternatingChecker], so a pointer that is not null
    designates the checker's running diagram, respectively its package. *)
Inductive Pointer := nullptr | linked.

Definition isNull (ptr : Pointer) : bool :=
  match ptr with
  | nullptr => true
  | linked => false
  end.

Module Lookahead.

(** The scheme object, together with the objects its reference members
    ([taskManager1], [taskManager2]) and its pointer members designate:
    [cell] is [*internalState], [calls] is what [*package] has been asked
    to do. *)
Record State `{TaskManagerOps} := mkState {
  taskManager1 : TaskManager MatrixDD;
  taskManager2 : TaskManager MatrixDD;
  op1 : DD MatrixDD;
  op2 : DD MatrixDD;
  cached1 : bool;
  cached2 : bool;
  internalState : Pointer;
  package : Pointer;
  cell : DD MatrixDD;
  calls : list PackageCall
}.
Arguments State {_ _}.
Arguments mkState {_ _}.

Section Updates.
Context `{TaskManagerOps}.

Definition set_taskManager1 v (s : State) :=
  mkState v (taskManager2 s) (op1 s) (op2 s) (cached1 s) (cached2 s)
          (internalState s) (package s) (cell s) (calls s).
Definition set_taskManager2 v (s : State) :=
  mkState (taskManager1 s) v (op1 s) (op2 s) (cached1 s) (cached2 s)
          (internalState s) (package s) (cell s) (calls s).
Definition set_op1 v (s : State) :=
  mkState (taskManager1 s) (taskManager2 s) v (op2 s) (cached1 s) (cached2 s)
          (internalState s) (package s) (cell s) (calls s).
Definition set_op2 v (s : State) :=
  mkState (taskManager1 s) (taskManager2 s) (op1 s) v (cached1 s) (cached2 s)
          (internalState s) (package s) (cell s) (calls s).
Definition set_cached1 v (s : State) :=
  mkState (taskManager1 s) (taskManager2 s) (op1 s) (op2 s) v (cached2 s)
          (internalState s) (package s) (cell s) (calls s).
Definition set_cached2 v (s : State) :=
  mkState (taskManager1 s) (taskManager2 s) (op1 s) (op2 s) (cached1 s) v
          (internalState s) (package s) (cell s) (calls s).
Definition set_cell v (s : State) :=
  mkState (taskManager1 s) (taskManager2 s) (op1 s) (op2 s) (cached1 s)
          (cached2 s) (internalState s) (package s) v (calls s).
(** [package->call]. *)
Definition pkg (call : PackageCall) (s : State) :=
  mkState (taskManager1 s) (taskManager2 s) (op1 s) (op2 s) (cached1 s)
          (cached2 s) (internalState s) (package s) (cell s)
          (calls s ++ [call]).

(** [if (!cached1) { op1 = taskManager1.getDD(); package->incRef(op1);
    cached1 = true; }] *)
Definition cacheOp1 (s : State) : State :=
  if negb (cached1 s) then
    let s := set_op1 (getDD (taskManager1 s)) s in
    let s := pkg (incRef (op1 s)) s in
    set_cached1 true s
  else s.

Definition cacheOp2 (s : State) : State :=
  if negb (cached2 s) then
    let s := set_op2 (getInverseDD (taskManager2 s)) s in
    let s := pkg (incRef (op2 s)) s in
    set_cached2 true s
  else s.

(** [package->incRef( *internalState); package->decRef(saved);
    package->garbageCollect();] *)
Definition trackReferences (saved : DD MatrixDD) (s : State) : State :=
  let s := pkg (incRef (cell s)) s in
  let s := pkg (decRef saved) s in
  pkg garbageCollect s.

(** The block under "properly handle any cached operations on exit" of
    the first branch: the pending [op2] is multiplied in from the
    right. *)
Definition flushOp2 (s : State) : State :=
  if cached2 s then
    let saved := cell s in
    let s := set_cell (multiply saved (op2 s)) s in
    let s := pkg (incRef (cell s)) s in
    let s := pkg (decRef saved) s in
    let s := pkg (decRef (op2 s)) s in
    let s := set_cached2 false s in
    pkg garbageCollect s
  else s.

(** Its mirror image in the second branch: [op1] from the left. *)
Definition flushOp1 (s : State) : State :=
  if cached1 s then
    let saved := cell s in
    let s := set_cell (multiply (op1 s) saved) s in
    let s := pkg (incRef (cell s)) s in
    let s := pkg (decRef saved) s in
    let s := pkg (decRef (op1 s)) s in
    let s := set_cached1 false s in
    pkg garbageCollect s
  else s.

(** [LookaheadApplicationScheme::operator()] *)
Definition call (s : State) : Result ((nat * nat) * State) :=
  _ <- assert (negb (isNull (internalState s))) "internalState != nullptr" ;;
  _ <- assert (negb (isNull (package s))) "package != nullptr" ;;
  let s := cacheOp1 s in
  let s := cacheOp2 s in
  (* compute both possible applications and measure the resulting size *)
  let saved := cell s in
  let dd1 := multiply (op1 s) saved in
  let size1 := size dd1 in
  let dd2 := multiply saved (op2 s) in
  let size2 := size dd2 in
  (* greedily choose the smaller resulting decision diagram *)
  let s :=
    if size1 <=? size2 then
      let s := set_cell dd1 s in
      let s := pkg (decRef (op1 s)) s in
      set_cached1 false s
    else
      let s := set_cell dd2 s in
      let s := pkg (decRef (op2 s)) s in
      set_cached2 false s in
  let s := trackReferences saved s in
  if size1 <=? size2 then
    if finished (taskManager1 s) then
      Ok ((0, 0), flushOp2 s)
    else
      let s := set_taskManager1 (advanceIterator (taskManager1 s)) s in
      Ok ((0, 0), s)
  else
    if finished (taskManager2 s) then
      Ok ((0, 0), flushOp1 s)
    else
      let s := set_taskManager2 (advanceIterator (taskManager2 s)) s in
      Ok ((0, 0), s).

End Updates.

End Lookahead.

(** ** Application schemes *)

(** What the checker keeps of a lookahead scheme between calls: the
    members of the object itself.  A freshly constructed scheme has nothing
    cached and both pointers null. *)
Record LookaheadMembers `{Package} := mkMembers {
  the_op1 : DD MatrixDD;
  the_op2 : DD MatrixDD;
  the_cached1 : bool;
  the_cached2 : bool;
  the_internalState : Pointer;
  the_package : Pointer
}.

(** The scheme objects the constructor of the checker can create.  The
    lookahead scheme exists for matrices only. *)
Inductive ApplicationScheme `{Package} : DDType -> Type :=
| OneToOneApplicationScheme (T : DDType) : ApplicationScheme T
| ProportionalApplicationScheme (T : DDType) : ApplicationScheme T
| LookaheadApplicationScheme (members : LookaheadMembers) :
    ApplicationScheme MatrixDD
| GateCostApplicationScheme_profile (T : DDType) (location : string) :
    ApplicationScheme T
| GateCostApplicationScheme_function (T : DDType) (cost : CostFunction) :
    ApplicationScheme T.

Definition isLookahead `{Package} {T} (a : ApplicationScheme T) : bool :=
  match a with
  | LookaheadApplicationScheme _ => true
  | _ => false
  end.

(** [operator()] of the schemes whose sources are outside [src/]: they
    read both task managers and answer with a pair of gate counts. *)
Class SchemeOps `{TaskManagerOps} := {
  OneToOne_call : forall T, TaskManager T -> TaskManager T -> nat * nat;
  Proportional_call : forall T, TaskManager T -> TaskManager T -> nat * nat;
  GateCost_profile_call :
    forall T, string -> TaskManager T -> TaskManager T -> nat * nat;
  GateCost_function_call :
    forall T, CostFunction -> TaskManager T -> TaskManager T -> nat * nat
}.

(** The objects outside the checker's base class that a lookahead scheme is
    linked to: the running diagram [functionality] of the alternating
    checker and the reference-count traffic of the package. *)
Record Store `{Package} := mkStore {
  functionalityCell : DD MatrixDD;
  packageCalls : list PackageCall
}.

Definition Lookahead_load `{TaskManagerOps} (m : LookaheadMembers)
    (tm1 tm2 : TaskManager MatrixDD) (st : Store) : Lookahead.State :=
  Lookahead.mkState tm1 tm2 (the_op1 m) (the_op2 m) (the_cached1 m)
    (the_cached2 m) (the_internalState m) (the_package m)
    (functionalityCell st) (packageCalls st).

Definition Lookahead_members `{TaskManagerOps} (s : Lookahead.State)
    : LookaheadMembers :=
  mkMembers (Lookahead.op1 s) (Lookahead.op2 s) (Lookahead.cached1 s)
    (Lookahead.cached2 s) (Lookahead.internalState s) (Lookahead.package s).

Definition Lookahead_store `{TaskManagerOps} (s : Lookahead.State) : Store :=
  mkStore (Lookahead.cell s) (Lookahead.calls s).

(** What one call of [( *applicationScheme)()] leaves behind. *)
Record SchemeStep `{TaskManagerOps} (T : DDType) := mkStep {
  apply1 : nat;
  apply2 : nat;
  scheme' : ApplicationScheme T;
  tm1' : TaskManager T;
  tm2' : TaskManager T;
  store' : Store
}.
Arguments mkStep {_ _ T}.

(** Virtual dispatch of [operator()]. *)
Definition callScheme `{SchemeOps} {T} (a : ApplicationScheme T)
    : TaskManager T -> TaskManager T -> Store -> Result (SchemeStep T) :=
  match a in ApplicationScheme T
        return TaskManager T -> TaskManager T -> Store -> Result (SchemeStep T)
  with
  | OneToOneApplicationScheme T => fun tm1 tm2 st =>
      let '(a1, a2) := OneToOne_call T tm1 tm2 in
      Ok (mkStep a1 a2 (OneToOneApplicationScheme T) tm1 tm2 st)
  | ProportionalApplicationScheme T => fun tm1 tm2 st =>
      let '(a1, a2) := Proportional_call T tm1 tm2 in
      Ok (mkStep a1 a2 (ProportionalApplicationScheme T) tm1 tm2 st)
  | LookaheadApplicationScheme m => fun tm1 tm2 st =>
      ' (a1, a2, s) <- Lookahead.call (Lookahead_load m tm1 tm2 st) ;;
      Ok (mkStep a1 a2 (LookaheadApplicationScheme (Lookahead_members s))
                 (Lookahead.taskManager1 s) (Lookahead.taskManager2 s)
                 (Lookahead_store s))
  | GateCostApplicationScheme_profile T location => fun tm1 tm2 st =>
      let '(a1, a2) := GateCost_profile_call T location tm1 tm2 in
      Ok (mkStep a1 a2 (GateCostApplicationScheme_profile T location) tm1 tm2 st)
  | GateCostApplicationScheme_function T cost => fun tm1 tm2 st =>
      let '(a1, a2) := GateCost_function_call T cost tm1 tm2 in
      Ok (mkStep a1 a2 (GateCostApplicationScheme_function T cost) tm1 tm2 st)
  end.

(** ** [EquivalenceChecker<DDType>] *)

Record EquivalenceChecker `{TaskManagerOps} (T : DDType) := mkChecker {
  qc1 : QuantumComputation;
  qc2 : QuantumComputation;
  nqubits : nat;
  dd : PackagePtr;
  taskManager1 : TaskManager T;
  taskManager2 : TaskManager T;
  configuration : Configuration;
  applicationScheme : ApplicationScheme T;
  maxActiveNodes : nat;
  runtime : float
}.
Arguments mkChecker {_ _ T}.

(** What [std::move] leaves behind in the members of a [Configuration] that
    are not plain values: a valid but unspecified string and cost function
    (the scheme, the flags and the thresholds are copied and stay as they
    were). *)
Class MoveSemantics := {
  movedFromString : string -> string;
  movedFromFunction : CostFunction -> CostFunction
}.

Definition movedFrom `{MoveSemantics} (configuration : Configuration)
    : Configuration :=
  {| application :=
       {| scheme := scheme (application configuration);
          useProfile := useProfile (application configuration);
          profileLocation :=
            movedFromString (profileLocation (application configuration));
          costFunction :=
            movedFromFunction (costFunction (application configuration)) |};
     functionality := functionality configuration;
     simulation := simulation configuration |}.

Section Checker.
Context `{SchemeOps}.
Context `{!MoveSemantics}.

(** The [switch] of the constructor.  It selects on the member
    [this->configuration]; the [GateCost] case however reads [useProfile],
    [profileLocation] and [costFunction] from the constructor's argument,
    which the member initialiser has moved from. *)
Definition makeApplicationScheme (T : DDType) (configuration : Configuration)
    : Result (ApplicationScheme T) :=
  let argument := movedFrom configuration in
  match scheme (application configuration) with
  | OneToOne_t => Ok (OneToOneApplicationScheme T)
  | Proportional_t => Ok (ProportionalApplicationScheme T)
  | Lookahead_t =>
      match T return Result (ApplicationScheme T) with
      | MatrixDD =>
          Ok (LookaheadApplicationScheme
                (mkMembers (defaultDD MatrixDD) (defaultDD MatrixDD)
                           false false nullptr nullptr))
      | VectorDD => Err (runtime_error lookahead_only_for_matrices)
      end
  | GateCost_t =>
      if useProfile (application argument) then
        Ok (GateCostApplicationScheme_profile T
              (profileLocation (application argument)))
      else
        Ok (GateCostApplicationScheme_function T
              (costFunction (application argument)))
  end.

(** [EquivalenceChecker<DDType>::EquivalenceChecker]: the member
    initialisers, then the body. *)
Definition EquivalenceChecker_new (T : DDType)
    (qc1 qc2 : QuantumComputation) (configuration : Configuration)
    : Result (EquivalenceChecker T) :=
  let nqubits := Nat.max (getNqubits qc1) (getNqubits qc2) in
  let dd := make_unique_Package nqubits in
  let taskManager1 := TaskManager_new T qc1 dd in
  let taskManager2 := TaskManager_new T qc1 dd in
  applicationScheme <- makeApplicationScheme T configuration ;;
  Ok (mkChecker qc1 qc2 nqubits dd taskManager1 taskManager2 configuration
                applicationScheme 0 0%float).

Section Members.
Variable T : DDType.
Implicit Type c : EquivalenceChecker T.

Definition set_nqubits v c :=
  mkChecker (qc1 c) (qc2 c) v (dd c) (taskManager1 c) (taskManager2 c)
            (configuration c) (applicationScheme c) (maxActiveNodes c)
            (runtime c).
Definition set_taskManager1 v c :=
  mkChecker (qc1 c) (qc2 c) (nqubits c) (dd c) v (taskManager2 c)
            (configuration c) (applicationScheme c) (maxActiveNodes c)
            (runtime c).
Definition set_taskManager2 v c :=
  mkChecker (qc1 c) (qc2 c) (nqubits c) (dd c) (taskManager1 c) v
            (configuration c) (applicationScheme c) (maxActiveNodes c)
            (runtime c).
Definition set_applicationScheme v c :=
  mkChecker (qc1 c) (qc2 c) (nqubits c) (dd c) (taskManager1 c)
            (taskManager2 c) (configuration c) v (maxActiveNodes c)
            (runtime c).
Definition set_maxActiveNodes v c :=
  mkChecker (qc1 c) (qc2 c) (nqubits c) (dd c) (taskManager1 c)
            (taskManager2 c) (configuration c) (applicationScheme c) v
            (runtime c).
Definition set_runtime v c :=
  mkChecker (qc1 c) (qc2 c) (nqubits c) (dd c) (taskManager1 c)
            (taskManager2 c) (configuration c) (applicationScheme c)
            (maxActiveNodes c) v.

(** The condition of the [while] and of the inner [if]. *)
Definition bothUnfinished c : bool :=
  negb (finished (taskManager1 c)) && negb (finished (taskManager2 c)).

(** [initialize]; [initializeTask] is pure virtual in the base class. *)
Definition initialize (initializeTask : TaskManager T -> TaskManager T) c :=
  let c := set_taskManager1 (initializeTask (taskManager1 c)) c in
  set_taskManager2 (initializeTask (taskManager2 c)) c.

(** "skip over any SWAP operations" *)
Definition skipSwaps c :=
  let c := set_taskManager1 (applySwapOperations (taskManager1 c)) c in
  set_taskManager2 (applySwapOperations (taskManager2 c)) c.

(** "query application scheme on how to proceed" and "advance both
    tasks correspondingly". *)
Definition applyScheme c (st : Store)
    : Result (EquivalenceChecker T * Store) :=
  step <- callScheme (applicationScheme c) (taskManager1 c)
                     (taskManager2 c) st ;;
  let c := set_applicationScheme (scheme' step) c in
  let c := set_taskManager1 (tm1' step) c in
  let c := set_taskManager2 (tm2' step) c in
  let c := set_taskManager1 (advance (apply1 step) (taskManager1 c)) c in
  let c := set_taskManager2 (advance (apply2 step) (taskManager2 c)) c in
  Ok (c, store' step).

(** [execute].  Each unit of fuel pays for one iteration of the
    [while]; [None] means the fuel ran out before the loop was left. *)
Fixpoint execute (fuel : nat) c (st : Store)
    : option (Result (EquivalenceChecker T * Store)) :=
  if bothUnfinished c then
    match fuel with
    | 0 => None
    | S fuel =>
        let c := skipSwaps c in
        if bothUnfinished c then
          match applyScheme c st with
          | Ok (c, st) => execute fuel c st
          | Err f => Some (Err f)
          end
        else execute fuel c st
    end
  else Some (Ok (c, st)).

Definition finish c :=
  let c := set_taskManager1 (tm_finish (taskManager1 c)) c in
  set_taskManager2 (tm_finish (taskManager2 c)) c.

Definition postprocessTask (task : TaskManager T) : TaskManager T :=
  let task := changePermutation task in
  let task := reduceAncillae task in
  reduceGarbage task.

Definition postprocess c :=
  let c := set_taskManager1 (postprocessTask (taskManager1 c)) c in
  set_taskManager2 (postprocessTask (taskManager2 c)) c.

Definition checkEquivalence c : EquivalenceCriterion * EquivalenceChecker T :=
  (equals (configuration c) (getInternalState (taskManager1 c))
          (getInternalState (taskManager2 c)), c).

(** The two virtual members a derived checker in [src/] overrides. *)
Record Overrides := {
  v_initializeTask : TaskManager T -> TaskManager T;
  v_checkEquivalence :
    EquivalenceChecker T -> EquivalenceCriterion * EquivalenceChecker T
}.

(** [run].  [start] and [stop] are the two readings of the steady clock,
    in seconds. *)
Definition run (vtable : Overrides) (start stop : float) (fuel : nat) c
    (st : Store)
    : option (Result (EquivalenceCriterion * EquivalenceChecker T * Store)) :=
  let c := initialize (v_initializeTask vtable) c in
  match execute fuel c st with
  | None => None
  | Some (Err f) => Some (Err f)
  | Some (Ok (c, st)) =>
      let c := finish c in
      let c := postprocess c in
      let '(equivalence, c) := v_checkEquivalence vtable c in
      let c := set_maxActiveNodes (getMaxActiveNodes T) c in
      let c := set_runtime (sub stop start) c in
      Some (Ok (equivalence, c, st))
  end.

End Members.

End Checker.

(** ** [DDSimulationChecker] *)

(** [StateGenerator] lives outside [src/]; the checker calls one member
    function of it, which may advance the generator. *)
Class StateGeneratorOps `{Package} := {
  StateGenerator : Type;
  generateRandomState :
    StateGenerator -> PackagePtr -> nat -> nat -> StateType ->
    DD VectorDD * StateGenerator
}.

Module DDSimulationChecker.

(** The base-class subobject and the one member the class adds. *)
Record t `{TaskManagerOps} := mk {
  base : EquivalenceChecker VectorDD;
  initialState : DD VectorDD
}.
Arguments t {_ _}.
Arguments mk {_ _}.

Section Members.
Context `{SchemeOps}.
Context `{!MoveSemantics}.

Definition new (qc1 qc2 : QuantumComputation)
    (configuration : Configuration) : Result t :=
  base <- EquivalenceChecker_new VectorDD qc1 qc2 configuration ;;
  Ok (mk base (makeZeroState (nqubits base))).

Definition new_with (qc1 qc2 : QuantumComputation)
    (configuration : Configuration) (initialState : DD VectorDD)
    : Result t :=
  base <- EquivalenceChecker_new VectorDD qc1 qc2 configuration ;;
  Ok (mk base initialState).

Definition initializeTask (this : t) (task : TaskManager VectorDD)
    : TaskManager VectorDD :=
  let task := setInternalState (initialState this) task in
  tm_incRef task.

Definition checkEquivalence (c : EquivalenceChecker VectorDD)
    : EquivalenceCriterion * EquivalenceChecker VectorDD :=
  let '(equivalence, c) := checkEquivalence c in
  (* adjust reference counts to facilitate reuse *)
  let c := set_taskManager1 (tm_decRef (taskManager1 c)) c in
  let c := set_taskManager2 (tm_decRef (taskManager2 c)) c in
  (equivalence, c).

Definition vtable (this : t) : Overrides VectorDD :=
  {| v_initializeTask := initializeTask this;
     v_checkEquivalence := checkEquivalence |}.

(** [const auto nancillary = nqubits = qc1.getNqubitsWithoutAncillae();]
    assigns the member first and reads it back for [nancillary]. *)
Definition setRandomInitialState `{!StateGeneratorOps}
    (generator : StateGenerator) (this : t) : t * StateGenerator :=
  let this :=
    mk (set_nqubits (getNqubitsWithoutAncillae (qc1 (base this)))
                    (base this))
       (initialState this) in
  let nancillary := nqubits (base this) in
  let '(state, generator) :=
    generateRandomState generator (dd (base this)) (nqubits (base this))
      nancillary (stateType (simulation (configuration (base this)))) in
  (mk (base this) state, generator).

End Members.

End DDSimulationChecker.

(** ** [DDAlternatingChecker]: wiring of the lookahead scheme *)

Module DDAlternatingChecker.

(** The "special treatment for the lookahead application scheme" at the end
    of the constructor in [DDAlternatingChecker.hpp]: if the scheme is a
    lookahead scheme, [setInternalState(functionality)] and
    [setPackage(dd.get())] are called on it. *)
Definition linkScheme `{Package} {T} (a : ApplicationScheme T)
    : ApplicationScheme T :=
  match a in ApplicationScheme T return ApplicationScheme T with
  | LookaheadApplicationScheme m =>
      LookaheadApplicationScheme
        (mkMembers (the_op1 m) (the_op2 m) (the_cached1 m) (the_cached2 m)
                   linked linked)
  | OneToOneApplicationScheme T => OneToOneApplicationScheme T
  | ProportionalApplicationScheme T => ProportionalApplicationScheme T
  | GateCostApplicationScheme_profile T location =>
      GateCostApplicationScheme_profile T location
  | GateCostApplicationScheme_function T cost =>
      GateCostApplicationScheme_function T cost
  end.

End DDAlternatingChecker.

(** ** A small instance of the interfaces

    Statements about the checker hold for every package and every task
    manager.  To evaluate them there is one instance: the diagrams of signed
    strings of X gates.  A node pointer is the bit mask of the qubits that
    carry an X, the weight is the sign, and multiplication is the symmetric
    difference of the masks. *)

Module XStrings.

Fixpoint popcount (fuel n : nat) : nat :=
  match fuel with
  | 0 => 0
  | S fuel => n mod 2 + popcount fuel (n / 2)
  end.

(** The product of two signed strings, on either flavour. *)
Definition times {T U} (a : Edge bool T) (b : Edge bool U) : Edge bool U :=
  mkEdge U (Nat.lxor (p a) (p b)) (Bool.eqb (w a) (w b)).

#[export] Instance package : Package := {|
  Complex := bool;
  approximatelyEquals := Bool.eqb;
  ident := fun ptr => ptr =? 0;
  multiply := fun a b => times a b;
  conjugateTranspose := fun a => a;
  isCloseToIdentity := fun a _ => p a =? 0;
  innerProduct := fun u v =>
    if p u =? p v then
      {| r := if Bool.eqb (w u) (w v) then 1%float else (-1)%float;
         i := 0%float |}
    else {| r := 0%float; i := 0%float |};
  size := fun a => S (popcount (p a) (p a));
  makeZeroState := fun _ => mkEdge VectorDD 0 true;
  defaultDD := fun T => mkEdge T 0 true;
  getMaxActiveNodes := fun _ => 0
|}.

Inductive Direction := Forward | Reverse.

(** Modelled from the spec: the task manager, whose header and source are
    outside [src/].  Its state is that of section 3 (cursor, direction,
    permutation map, running diagram; "finished" is "cursor past the last
    gate"), its operations those of section 4.1.  Circuits of this instance
    have the identity output permutation and no ancillary or garbage qubit,
    so the three postprocessing steps have nothing to do; reference counts
    are not kept. *)
Record Task (T : DDType) := mkTask {
  circuit : QuantumComputation;
  cursor : nat;
  direction : Direction;
  permutation : list nat;
  running : Edge bool T
}.

Definition physical (perm : list nat) (q : nat) : nat := nth q perm q.

Fixpoint replaceAt (q v : nat) (perm : list nat) : list nat :=
  match perm, q with
  | [], _ => []
  | _ :: rest, 0 => v :: rest
  | x :: rest, S q => x :: replaceAt q v rest
  end.

Definition swapEntries (q0 q1 : nat) (perm : list nat) : list nat :=
  replaceAt q0 (physical perm q1) (replaceAt q1 (physical perm q0) perm).

(** The SWAPs at the head of the pending gates: how many there are, and the
    permutation map after them. *)
Fixpoint pendingSwaps (rest : list Operation) (perm : list nat)
    : nat * list nat :=
  match rest with
  | SWAP q0 q1 :: rest =>
      let '(k, perm) := pendingSwaps rest (swapEntries q0 q1 perm) in
      (S k, perm)
  | _ => (0, perm)
  end.

(** The diagram of a gate: an X on the physical qubit of its target; any
    other gate of this instance is the identity. *)
Definition gateDD (perm : list nat) (op : Operation) : Edge bool MatrixDD :=
  match op with
  | Gate name _ target =>
      if String.eqb name "x" then mkEdge MatrixDD (2 ^ physical perm target) true
      else mkEdge MatrixDD 0 true
  | SWAP _ _ => mkEdge MatrixDD 0 true
  end.

Section Operations.
Variable T : DDType.
Implicit Type tm : Task T.

Definition new (qc : QuantumComputation) (_ : PackagePtr) : Task T :=
  mkTask qc 0 Forward (seq 0 (totalQubits qc)) (mkEdge T 0 true).

Definition isFinished tm : bool := List.length (ops (circuit tm)) <=? cursor tm.

Definition skipSwapOperations tm : Task T :=
  let '(k, perm) :=
    pendingSwaps (skipn (cursor tm) (ops (circuit tm))) (permutation tm) in
  mkTask (circuit tm) (cursor tm + k) (direction tm) perm (running tm).

Definition currentDD tm : Edge bool MatrixDD :=
  match nth_error (ops (circuit tm)) (cursor tm) with
  | Some op => gateDD (permutation tm) op
  | None => mkEdge MatrixDD 0 true
  end.

Definition stepIterator tm : Task T :=
  mkTask (circuit tm) (S (cursor tm)) (direction tm) (permutation tm)
         (running tm).

(** One gate of [advance]: pending SWAPs are elided, then the gate under the
    cursor is multiplied onto the running diagram (an X string is its own
    inverse, and the products commute, so both directions agree).  At the
    end of the circuit nothing happens. *)
Definition applyGate tm : Task T :=
  let tm := skipSwapOperations tm in
  if isFinished tm then tm
  else mkTask (circuit tm) (S (cursor tm)) (direction tm) (permutation tm)
              (times (currentDD tm) (running tm)).

Definition advanceBy (n : nat) tm : Task T := Nat.iter n applyGate tm.

Definition withState (state : Edge bool T) tm : Task T :=
  mkTask (circuit tm) (cursor tm) (direction tm) (permutation tm) state.

End Operations.

#[export] Instance taskManagerOps : TaskManagerOps := {|
  TaskManager := Task;
  TaskManager_new := new;
  finished := isFinished;
  applySwapOperations := skipSwapOperations;
  advance := advanceBy;
  advanceIterator := stepIterator;
  getDD := currentDD;
  getInverseDD := currentDD;
  getInternalState := running;
  setInternalState := withState;
  tm_incRef := fun _ tm => tm;
  tm_decRef := fun _ tm => tm;
  tm_finish := skipSwapOperations;
  changePermutation := fun _ tm => tm;
  reduceAncillae := fun _ tm => tm;
  reduceGarbage := fun _ tm => tm
|}.

(** The gate under the cursor, as a key of the gate-cost table. *)
Definition gateCost (cost : CostFunction) {T} (tm : Task T) : nat :=
  match nth_error (ops (circuit tm)) (cursor tm) with
  | Some (Gate name controls _) => cost name (List.length controls)
  | _ => 1
  end.

(** Modelled from the spec: the application schemes of section 4.2 whose
    sources are outside [src/].  One-to-one answers [(1, 1)]; proportional
    answers one gate of the shorter circuit against the rounded ratio of the
    lengths; gate cost answers one gate of the first circuit against its
    cost, every gate costing 1 when the table comes from a profile that is
    not read here. *)
#[export] Instance schemeOps : SchemeOps := {|
  OneToOne_call := fun _ _ _ => (1, 1);
  Proportional_call := fun _ tm1 tm2 =>
    let n1 := List.length (ops (circuit tm1)) in
    let n2 := List.length (ops (circuit tm2)) in
    if n1 <=? n2 then (1, Nat.max 1 ((2 * n2 + n1) / (2 * n1)))
    else (Nat.max 1 ((2 * n1 + n2) / (2 * n2)), 1);
  GateCost_profile_call := fun _ _ _ _ => (1, 1);
  GateCost_function_call := fun _ cost tm1 _ => (1, gateCost cost tm1)
|}.

(** A moved-from string is empty; a moved-from cost function is left as it
    was. *)
#[export] Instance moveSemantics : MoveSemantics := {|
  movedFromString := fun _ => EmptyString;
  movedFromFunction := fun cost => cost
|}.

(** The gates a task manager still has before it, and their total over the
    two task managers of a checker. *)
Definition remaining {T} (tm : Task T) : nat :=
  List.length (ops (circuit tm)) - cursor tm.

Definition pending {T} (c : EquivalenceChecker T) : nat :=
  remaining (taskManager1 c) + remaining (taskManager2 c).

(** A state generator that answers with the zero state and keeps a record
    of the arguments of every call. *)
#[export] Instance stateGeneratorOps : StateGeneratorOps := {|
  StateGenerator := list (PackagePtr * nat * nat * StateType);
  generateRandomState := fun generator dd nqubits nancillary type =>
    (mkEdge VectorDD 0 true, generator ++ [(dd, nqubits, nancillary, type)])
|}.

(** Circuits and configurations to run the checker on. *)
Definition x (target : nat) : Operation := Gate "x" [] target.

Definition circuitOf (gates : list Operation) (n : nat) : QuantumComputation :=
  {| ops := gates; totalQubits := n; ancillary := repeat false n |}.

Definition configurationWith (s : ApplicationSchemeType) (cost : CostFunction)
    : Configuration :=
  {| application := {| scheme := s; useProfile := false;
                       profileLocation := EmptyString;
                       costFunction := cost |};
     functionality := {| traceThreshold := 0x1.5798ee2308c3ap-27%float |};
     simulation := {| fidelityThreshold := 0x1.5798ee2308c3ap-27%float;
                      stateType := ComputationalBasis |} |}.

Definition emptyStore : Store := mkStore (mkEdge MatrixDD 0 true) [].

Definition defaults : Configuration :=
  configurationWith OneToOne_t (fun _ _ => 1).

Definition withLookahead : Configuration :=
  configurationWith Lookahead_t (fun _ _ => 1).

(** The recording generator before its first call. *)
Definition freshGenerator : StateGenerator := [].

(** Three qubits, the last of them ancillary. *)
Definition withAncilla : QuantumComputation :=
  {| ops := [x 0]; totalQubits := 3; ancillary := [false; false; true] |}.

Definition oneX : QuantumComputation := circuitOf [x 0] 1.
Definition twoX : QuantumComputation := circuitOf [x 0; x 0] 1.
Definition threeX : QuantumComputation := circuitOf [x 0; x 0; x 0] 1.

(** A linked lookahead scheme before its first call, between a circuit that
    starts with an X on qubit 0 and one that is an X on qubit 1. *)
Definition atStart : Lookahead.State :=
  Lookahead.mkState
    (new MatrixDD (circuitOf [x 0; x 1] 2) (make_unique_Package 2))
    (new MatrixDD (circuitOf [x 1] 2) (make_unique_Package 2))
    (mkEdge MatrixDD 0 true) (mkEdge MatrixDD 0 true) false false
    linked linked (mkEdge MatrixDD 0 true) [].

(** The same scheme as the constructor of the checker leaves it: nothing
    linked yet. *)
Definition unlinked : Lookahead.State :=
  Lookahead.mkState
    (new MatrixDD (circuitOf [x 0; x 1] 2) (make_unique_Package 2))
    (new MatrixDD (circuitOf [x 1] 2) (make_unique_Package 2))
    (mkEdge MatrixDD 0 true) (mkEdge MatrixDD 0 true) false false
    nullptr nullptr (mkEdge MatrixDD 0 true) [].

(** A linked scheme that holds the X on qubit 0 in its first cache while
    the cursor of the first task manager is already past the last gate; the
    second circuit still has its X on qubit 1 to give. *)
Definition atEndOfFirst : Lookahead.State :=
  Lookahead.mkState
    (mkTask (circuitOf [x 0] 2) 1 Forward [0; 1] (mkEdge MatrixDD 0 true))
    (mkTask (circuitOf [x 1] 2) 0 Reverse [0; 1] (mkEdge MatrixDD 0 true))
    (mkEdge MatrixDD 1 true) (mkEdge MatrixDD 0 true) true false
    linked linked (mkEdge MatrixDD 0 true) [].

(** A linked scheme whose running diagram already is the X on qubit 0,
    between an X on qubit 1 from the left and an X on qubit 0 from the
    right: the product from the left is the larger one. *)
Definition leftHeavy : Lookahead.State :=
  Lookahead.mkState
    (new MatrixDD (circuitOf [x 1] 2) (make_unique_Package 2))
    (new MatrixDD (circuitOf [x 0] 2) (make_unique_Package 2))
    (mkEdge MatrixDD 0 true) (mkEdge MatrixDD 0 true) false false
    linked linked (mkEdge MatrixDD 1 true) [].

(** The default configuration with both thresholds at zero. *)
Definition withZeroThreshold : Configuration :=
  {| application := application defaults;
     functionality := {| traceThreshold := 0%float |};
     simulation := {| fidelityThreshold := 0%float;
                      stateType := ComputationalBasis |} |}.

End XStrings.

(** ** Quantities further statements speak about *)

(** How many operations a lookahead scheme holds in its cache. *)
Definition cachedCount `{TaskManagerOps} (s : Lookahead.State) : nat :=
  (if Lookahead.cached1 s then 1 else 0) + (if Lookahead.cached2 s then 1 else 0).



(** A checker as it would be with another second circuit stored in it. *)
Definition set_qc2 `{TaskManagerOps} {T} (v : QuantumComputation)
    (c : EquivalenceChecker T) : EquivalenceChecker T :=
  mkChecker (qc1 c) v (nqubits c) (dd c) (taskManager1 c) (taskManager2 c)
            (configuration c) (applicationScheme c) (maxActiveNodes c)
            (runtime c).

(** The outcome of a run without the state it leaves: out of fuel, failed,
    or a verdict. *)
Definition verdictOf `{TaskManagerOps} {T}
    (outcome :
       option (Result (EquivalenceCriterion * EquivalenceChecker T * Store)))
    : option (Result EquivalenceCriterion) :=
  match outcome with
  | None => None
  | Some (Err f) => Some (Err f)
  | Some (Ok (verdict, _, _)) => Some (Ok verdict)
  end.

(** The two task managers of a checker are in the same state and the scheme
    is the one-to-one scheme. *)
Definition inLockstep `{TaskManagerOps} {T} (c : EquivalenceChecker T) : Prop :=
  taskManager1 c = taskManager2 c /\
  applicationScheme c = OneToOneApplicationScheme T.

(** * Properties *)

(** ** The equals predicate *)

Section EqualsProperties.
Context `{Package}.
Variable configuration : Configuration.

Lemma weightVerdict_cases {T} (e f : DD T) :
  weightVerdict e f =
  if approximatelyEquals (w e) (w f) then Equivalent
  else EquivalentUpToGlobalPhase.
Proof. unfold weightVerdict. now destruct (approximatelyEquals (w e) (w f)). Qed.

Lemma equals_distinct_matrix (e f : DD MatrixDD) :
  p e <> p f -> equals configuration e f = equalsMatrix configuration e f.
Proof.
  intros Hne. unfold equals.
  destruct (Nat.eqb_spec (p e) (p f)) as [Heq | _]; [contradiction | reflexivity].
Qed.

Lemma equals_distinct_vector (e f : DD VectorDD) :
  p e <> p f -> equals configuration e f = equalsVector configuration e f.
Proof.
  intros Hne. unfold equals.
  destruct (Nat.eqb_spec (p e) (p f)) as [Heq | _]; [contradiction | reflexivity].
Qed.

(** The verdicts [equals] can give: never [NoInformation], never
    [ProbablyEquivalent]. *)
Lemma equals_range {T} (e f : DD T) :
  let v := equals configuration e f in
  v = Equivalent \/ v = EquivalentUpToGlobalPhase \/
  v = EquivalentUpToPhase \/ v = NotEquivalent.
Proof.
  cbv zeta. unfold equals.
  destruct (Nat.eqb (p e) (p f)).
  - rewrite weightVerdict_cases. destruct (approximatelyEquals _ _); auto.
  - destruct T.
    + unfold equalsVector.
      repeat match goal with |- context [if ?b then _ else _] => destruct b end;
        auto.
    + unfold equalsMatrix. cbv zeta. rewrite weightVerdict_cases.
      repeat match goal with |- context [if ?b then _ else _] => destruct b end;
        auto.
Qed.

(** C4.  For matrix diagrams with distinct node pointers, [equals] compares
    with the identity, within [traceThreshold], the product
    [e * conjugateTranspose f], or, when the node of one operand is flagged
    as the identity, the other operand itself without multiplying.  If that
    diagram is close to the identity the verdict is [Equivalent] when the top
    edge weights approximately agree and [EquivalentUpToGlobalPhase] when
    they do not; otherwise it is [NotEquivalent]. *)
Theorem equals_matrix_distinct_nodes (e f : DD MatrixDD) :
  p e <> p f ->
  let g :=
    if ident (p e) then f
    else if ident (p f) then e
    else multiply e (conjugateTranspose f) in
  let isClose :=
    isCloseToIdentity g (traceThreshold (functionality configuration)) in
  (isClose = true -> approximatelyEquals (w e) (w f) = true ->
   equals configuration e f = Equivalent) /\
  (isClose = true -> approximatelyEquals (w e) (w f) = false ->
   equals configuration e f = EquivalentUpToGlobalPhase) /\
  (isClose = false -> equals configuration e f = NotEquivalent).
Proof.
  intros Hne g isClose.
  rewrite (equals_distinct_matrix _ _ Hne).
  unfold equalsMatrix. cbv zeta. rewrite weightVerdict_cases.
  assert (Hclose :
    (if ident (p e)
     then isCloseToIdentity f (traceThreshold (functionality configuration))
     else if ident (p f)
          then isCloseToIdentity e (traceThreshold (functionality configuration))
          else isCloseToIdentity (multiply e (conjugateTranspose f))
                 (traceThreshold (functionality configuration))) = isClose).
  { subst isClose g. destruct (ident (p e)); [reflexivity |].
    destruct (ident (p f)); reflexivity. }
  rewrite Hclose.
  repeat split; intros; 
    repeat match goal with Heq : _ = _ |- _ => rewrite Heq end; reflexivity.
Qed.

(** C5.  For vector diagrams with distinct node pointers, [equals] takes the
    inner product [r + i*im] of the two and answers, in this order:
    [Equivalent] when [|r - 1| < fidelityThreshold]; otherwise
    [EquivalentUpToPhase] when [|r*r + im*im - 1| < fidelityThreshold];
    otherwise [NotEquivalent]. *)
Theorem equals_vector_distinct_nodes (e f : DD VectorDD) :
  p e <> p f ->
  let ip := innerProduct e f in
  let threshold := fidelityThreshold (simulation configuration) in
  let nearOne := ltb (abs (sub (r ip) 1%float)) threshold in
  let fidelity := add (mul (r ip) (r ip)) (mul (i ip) (i ip)) in
  let fidelityNearOne := ltb (abs (sub fidelity 1%float)) threshold in
  (nearOne = true -> equals configuration e f = Equivalent) /\
  (nearOne = false -> fidelityNearOne = true ->
   equals configuration e f = EquivalentUpToPhase) /\
  (nearOne = false -> fidelityNearOne = false ->
   equals configuration e f = NotEquivalent).
Proof.
  intros Hne ip threshold nearOne fidelity fidelityNearOne.
  rewrite (equals_distinct_vector _ _ Hne).
  unfold equalsVector. cbv zeta.
  fold ip. fold threshold. fold nearOne. fold fidelity. fold fidelityNearOne.
  repeat split; intros;
    repeat match goal with Heq : _ = _ |- _ => rewrite Heq end; reflexivity.
Qed.

(** C6.  For handles of either flavour whose node pointers are equal,
    [equals] answers [Equivalent] when the top edge weights are
    approximately equal and [EquivalentUpToGlobalPhase] when they are not;
    in particular a diagram whose weight the package finds approximately
    equal to itself is [Equivalent] to itself. *)
Theorem equals_same_node (T : DDType) :
  (forall e f : DD T, p e = p f ->
     equals configuration e f =
     if approximatelyEquals (w e) (w f) then Equivalent
     else EquivalentUpToGlobalPhase) /\
  (forall M : DD T, approximatelyEquals (w M) (w M) = true ->
     equals configuration M M = Equivalent).
Proof.
  assert (Hfast : forall e f : DD T, p e = p f ->
            equals configuration e f =
            if approximatelyEquals (w e) (w f) then Equivalent
            else EquivalentUpToGlobalPhase).
  { intros e f Heq. unfold equals.
    apply Nat.eqb_eq in Heq. rewrite Heq. apply weightVerdict_cases. }
  split; [exact Hfast |].
  intros M Hrefl. rewrite (Hfast M M eq_refl), Hrefl. reflexivity.
Qed.

End EqualsProperties.

(** ** The constructor of the checker *)

Section ConstructorProperties.
Context `{SchemeOps}.
Context `{!MoveSemantics}.

Lemma EquivalenceChecker_new_Ok T qc1 qc2 configuration c :
  EquivalenceChecker_new T qc1 qc2 configuration = Ok c ->
  exists a,
    makeApplicationScheme T configuration = Ok a /\
    c = mkChecker qc1 qc2 (Nat.max (getNqubits qc1) (getNqubits qc2))
          (make_unique_Package (Nat.max (getNqubits qc1) (getNqubits qc2)))
          (TaskManager_new T qc1
             (make_unique_Package (Nat.max (getNqubits qc1) (getNqubits qc2))))
          (TaskManager_new T qc1
             (make_unique_Package (Nat.max (getNqubits qc1) (getNqubits qc2))))
          configuration a 0 0%float.
Proof.
  unfold EquivalenceChecker_new. cbv zeta.
  destruct (makeApplicationScheme T configuration) as [a | f]; simpl.
  - intros Hc. injection Hc as <-. now exists a.
  - discriminate.
Qed.

(** C1.  The constructor builds [taskManager2] from [qc1], not from [qc2]:
    whatever the two circuits are, both task managers are the task manager
    of the first circuit on the checker's package. *)
Theorem constructor_taskManager2_on_qc1 T qc1 qc2 configuration c :
  EquivalenceChecker_new T qc1 qc2 configuration = Ok c ->
  taskManager2 c = TaskManager_new T qc1 (dd c) /\
  taskManager1 c = TaskManager_new T qc1 (dd c) /\
  taskManager2 c = taskManager1 c.
Proof.
  intros Hnew.
  apply EquivalenceChecker_new_Ok in Hnew as (a & _ & ->).
  simpl. auto.
Qed.

(** C8.  With the lookahead scheme configured, constructing a checker over
    vector diagrams (directly, or as the base of a simulation checker) fails
    with [UnsupportedSchemeForDDType]; over matrix diagrams the same
    configuration yields a checker whose scheme is a
    [LookaheadApplicationScheme]. *)
Theorem lookahead_only_for_matrix_checkers qc1 qc2 configuration :
  scheme (application configuration) = Lookahead_t ->
  raises (EquivalenceChecker_new VectorDD qc1 qc2 configuration)
         UnsupportedSchemeForDDType /\
  raises (DDSimulationChecker.new qc1 qc2 configuration)
         UnsupportedSchemeForDDType /\
  exists c,
    EquivalenceChecker_new MatrixDD qc1 qc2 configuration = Ok c /\
    isLookahead (applicationScheme c) = true.
Proof.
  intros Hscheme.
  unfold DDSimulationChecker.new, EquivalenceChecker_new, makeApplicationScheme.
  rewrite Hscheme. cbv zeta. simpl.
  repeat split.
  - eexists. split; [reflexivity | reflexivity].
  - eexists. split; [reflexivity | reflexivity].
  - eexists. split; [reflexivity | reflexivity].
Qed.

End ConstructorProperties.

(** ** The lookahead scheme *)

Section LookaheadProperties.
Context `{TaskManagerOps}.
Import Lookahead.

Lemma call_unlinked_state (s : State) :
  internalState s = nullptr ->
  Lookahead.call s = Err (assertion_failed "internalState != nullptr").
Proof. intros Hnull. unfold call. rewrite Hnull. reflexivity. Qed.

Lemma call_unlinked_package (s : State) :
  internalState s = linked -> package s = nullptr ->
  Lookahead.call s = Err (assertion_failed "package != nullptr").
Proof. intros Hset Hnull. unfold call. rewrite Hset, Hnull. reflexivity. Qed.

Ltac by_caching s :=
  unfold cacheOp2, cacheOp1;
  destruct (cached1 s) eqn:?; simpl;
  destruct (cached2 s) eqn:?; simpl;
  repeat match goal with Heq : _ = _ |- _ => rewrite Heq end;
  simpl; auto.

(** The operation a side has pending once the caches are filled. *)
Lemma op1_after_caching (s : State) :
  op1 (cacheOp2 (cacheOp1 s)) =
  if cached1 s then op1 s else getDD (taskManager1 s).
Proof.
  by_caching s.
Qed.

Lemma op2_after_caching (s : State) :
  op2 (cacheOp2 (cacheOp1 s)) =
  if cached2 s then op2 s else getInverseDD (taskManager2 s).
Proof.
  by_caching s.
Qed.

Lemma frame_after_caching (s : State) :
  let s' := cacheOp2 (cacheOp1 s) in
  cell s' = cell s /\ taskManager1 s' = taskManager1 s /\
  taskManager2 s' = taskManager2 s /\ cached1 s' = true /\ cached2 s' = true.
Proof.
  cbv zeta. by_caching s.
Qed.

(** Every call that passes the two assertions returns, and returns
    [(0, 0)]. *)
Lemma call_linked_returns (s : State) :
  internalState s = linked -> package s = linked ->
  exists s', Lookahead.call s = Ok ((0, 0), s').
Proof.
  intros Hstate Hpackage. unfold call. rewrite Hstate, Hpackage. simpl.
  repeat match goal with
         | |- context [if ?b then _ else _] => destruct b
         end; eexists; reflexivity.
Qed.

(** C9.  A call made while the internal-state pointer or the package
    pointer is still null fails with [UninitializedScheme]; a call made with
    both set raises no error at all: it returns. *)
Theorem lookahead_call_needs_both_links (s : State) :
  (internalState s = nullptr \/ package s = nullptr ->
   raises (Lookahead.call s) UninitializedScheme) /\
  (internalState s = linked -> package s = linked ->
   ~ raises (Lookahead.call s) UninitializedScheme /\
   exists result s', Lookahead.call s = Ok (result, s')).
Proof.
  split.
  - intros Hnull.
    destruct (internalState s) eqn:Hstate.
    + exists (assertion_failed "internalState != nullptr").
      split; [now apply call_unlinked_state | reflexivity].
    + destruct Hnull as [Hnull | Hnull]; [discriminate |].
      exists (assertion_failed "package != nullptr").
      split; [now apply call_unlinked_package | reflexivity].
  - intros Hstate Hpackage.
    destruct (call_linked_returns s Hstate Hpackage) as [s' Hcall].
    split.
    + intros (f & Herr & _). rewrite Hcall in Herr. discriminate.
    + now exists (0, 0), s'.
Qed.

(** C7, as the code has it.  Every call that passes the two assertions
    returns [(0, 0)].  When the two candidate products have the same size
    the scheme takes side 1: [op1] leaves the cache and the cursor of
    [taskManager2] stays where it is.  If [taskManager1] is not finished the
    internal state is [op1 * saved] and the cursor of [taskManager1] is
    advanced by one; if [taskManager1] is finished no cursor moves and the
    pending [op2] is multiplied in as well, so that the internal state is
    [(op1 * saved) * op2]. *)
Theorem lookahead_tie_takes_side1 (s : State) :
  internalState s = linked -> package s = linked ->
  let pending1 := if cached1 s then op1 s else getDD (taskManager1 s) in
  let pending2 := if cached2 s then op2 s else getInverseDD (taskManager2 s) in
  let saved := cell s in
  let dd1 := multiply pending1 saved in
  let dd2 := multiply saved pending2 in
  exists s',
    Lookahead.call s = Ok ((0, 0), s') /\
    (size dd1 = size dd2 ->
     taskManager2 s' = taskManager2 s /\ cached1 s' = false /\
     (finished (taskManager1 s) = false ->
      cell s' = dd1 /\
      taskManager1 s' = advanceIterator (taskManager1 s) /\
      cached2 s' = true /\ op2 s' = pending2) /\
     (finished (taskManager1 s) = true ->
      cell s' = multiply dd1 pending2 /\
      taskManager1 s' = taskManager1 s /\
      cached2 s' = false)).
Proof.
  intros Hstate Hpackage pending1 pending2 saved dd1 dd2.
  unfold call. rewrite Hstate, Hpackage. simpl.
  destruct (frame_after_caching s) as (Hcell & Htm1 & Htm2 & Hc1 & Hc2).
  cbv zeta in Hcell, Htm1, Htm2, Hc1, Hc2.
  pose proof (op1_after_caching s) as Hop1.
  pose proof (op2_after_caching s) as Hop2.
  fold pending1 in Hop1. fold pending2 in Hop2.
  set (c := cacheOp2 (cacheOp1 s)) in *.
  rewrite Hcell, Hop1, Hop2. fold saved. fold dd1. fold dd2.
  destruct (size dd1 <=? size dd2) eqn:Hle.
  - simpl. rewrite Htm1.
    destruct (finished (taskManager1 s)) eqn:Hfin.
    + eexists. split; [reflexivity |].
      intros _. unfold flushOp2. simpl. rewrite Hc2. simpl.
      rewrite Htm1, Htm2, Hop2.
      repeat split; try reflexivity; try discriminate; intros; discriminate.
    + eexists. split; [reflexivity |].
      intros _. simpl. rewrite Htm2, Hc2, Hop2.
      repeat split; try reflexivity; intros; discriminate.
  - simpl. rewrite Htm2.
    destruct (finished (taskManager2 s)) eqn:Hfin;
      (eexists; split; [reflexivity |]);
      intros Htie; rewrite Htie, Nat.leb_refl in Hle; discriminate.
Qed.

End LookaheadProperties.

(** ** The driver *)

Section DriverProperties.
Context `{SchemeOps}.
Variable T : DDType.
Implicit Type c : EquivalenceChecker T.

Lemma bothUnfinished_false c :
  bothUnfinished c = false <->
  finished (taskManager1 c) = true \/ finished (taskManager2 c) = true.
Proof.
  unfold bothUnfinished.
  destruct (finished (taskManager1 c)), (finished (taskManager2 c)); simpl;
    intuition discriminate.
Qed.

Lemma bothUnfinished_true c :
  bothUnfinished c = true <->
  finished (taskManager1 c) = false /\ finished (taskManager2 c) = false.
Proof.
  unfold bothUnfinished.
  destruct (finished (taskManager1 c)), (finished (taskManager2 c)); simpl;
    intuition discriminate.
Qed.

(** The loop is left at once when its condition fails, whatever the fuel. *)
Lemma execute_exit fuel c st :
  bothUnfinished c = false -> execute fuel c st = Some (Ok (c, st)).
Proof. intros Hdone. destruct fuel; simpl; rewrite Hdone; reflexivity. Qed.

(** One iteration. *)
Lemma execute_iteration fuel c st :
  bothUnfinished c = true ->
  execute (S fuel) c st =
  if bothUnfinished (skipSwaps c) then
    match applyScheme (skipSwaps c) st with
    | Ok (c', st') => execute fuel c' st'
    | Err f => Some (Err f)
    end
  else Some (Ok (skipSwaps c, st)).
Proof.
  intros Hgo. simpl. rewrite Hgo.
  destruct (bothUnfinished (skipSwaps c)) eqn:Hgo'; [reflexivity |].
  now apply execute_exit.
Qed.

(** When the loop is left normally, one of the task managers is finished. *)
Lemma execute_leaves_one_finished fuel : forall c st c' st',
  execute fuel c st = Some (Ok (c', st')) -> bothUnfinished c' = false.
Proof.
  induction fuel as [| fuel IH]; intros c st c' st' Hrun.
  - simpl in Hrun. destruct (bothUnfinished c) eqn:Hgo; [discriminate |].
    now injection Hrun as <- <-.
  - destruct (bothUnfinished c) eqn:Hgo.
    + rewrite (execute_iteration _ _ _ Hgo) in Hrun.
      destruct (bothUnfinished (skipSwaps c)) eqn:Hgo'.
      * destruct (applyScheme (skipSwaps c) st) as [[c1 st1] | f];
          [eapply IH; eassumption | discriminate].
      * now injection Hrun as <- <-.
    + rewrite (execute_exit _ _ _ Hgo) in Hrun. now injection Hrun as <- <-.
Qed.

(** More fuel does not change a result. *)
Lemma execute_fuel_monotone fuel : forall c st res,
  execute fuel c st = Some res -> execute (S fuel) c st = Some res.
Proof.
  induction fuel as [| fuel IH]; intros c st res Hrun.
  - simpl in Hrun. destruct (bothUnfinished c) eqn:Hgo; [discriminate |].
    now rewrite execute_exit.
  - destruct (bothUnfinished c) eqn:Hgo.
    + rewrite (execute_iteration _ _ _ Hgo) in Hrun.
      rewrite (execute_iteration _ _ _ Hgo).
      destruct (bothUnfinished (skipSwaps c)); [| exact Hrun].
      destruct (applyScheme (skipSwaps c) st) as [[c1 st1] | f];
        [now apply IH | exact Hrun].
    + rewrite (execute_exit _ _ _ Hgo) in Hrun. now rewrite execute_exit.
Qed.

(** The loop terminates whenever some measure of the checker is not
    increased by skipping SWAPs and is decreased by a scheme step. *)
Lemma execute_terminates (measure : EquivalenceChecker T -> nat) :
  (forall c, measure (skipSwaps c) <= measure c) ->
  (forall c st c' st',
     bothUnfinished c = true -> applyScheme c st = Ok (c', st') ->
     measure c' < measure c) ->
  forall c st, exists res, execute (S (measure c)) c st = Some res.
Proof.
  intros Hswaps Hstep.
  assert (Hfuel : forall n c st,
            measure c <= n -> exists res, execute (S n) c st = Some res).
  { induction n as [| n IH]; intros c st Hle;
      (destruct (bothUnfinished c) eqn:Hgo;
       [| rewrite (execute_exit _ _ _ Hgo); eauto]);
      rewrite (execute_iteration _ _ _ Hgo);
      (destruct (bothUnfinished (skipSwaps c)) eqn:Hgo'; [| eauto]);
      (destruct (applyScheme (skipSwaps c) st) as [[c1 st1] | f] eqn:Happly;
       [| eauto]);
      pose proof (Hstep _ _ _ _ Hgo' Happly) as Hlt;
      pose proof (Hswaps c) as Hle'.
    - lia.
    - apply IH. lia. }
  intros c st. now apply Hfuel.
Qed.

(** C2, as the code has it.  [execute] tests at the top of the loop whether
    either task manager is finished and leaves if so.  Otherwise an
    iteration first applies the pending SWAPs of both task managers; if that
    finished either of them the loop is left; if not, the application scheme
    is asked for [(a, b)], [taskManager1] is advanced by [a] and
    [taskManager2] by [b], and the loop goes on.  The loop therefore runs
    until at least one of the two task managers is finished, not until both
    are; and it does come to an end whenever some measure of the checker is
    not increased by the SWAPs and is decreased by a scheme step. *)
Theorem execute_runs_until_one_finished fuel c st :
  let t1 := applySwapOperations (taskManager1 c) in
  let t2 := applySwapOperations (taskManager2 c) in
  let swapped := set_taskManager2 t2 (set_taskManager1 t1 c) in
  (finished (taskManager1 c) = true \/ finished (taskManager2 c) = true ->
   execute fuel c st = Some (Ok (c, st))) /\
  (finished (taskManager1 c) = false -> finished (taskManager2 c) = false ->
   (finished t1 = true \/ finished t2 = true ->
    execute (S fuel) c st = Some (Ok (swapped, st))) /\
   (finished t1 = false -> finished t2 = false ->
    (forall step,
       callScheme (applicationScheme c) t1 t2 st = Ok step ->
       execute (S fuel) c st =
       execute fuel
         (mkChecker (qc1 c) (qc2 c) (nqubits c) (dd c)
            (advance (apply1 step) (tm1' step))
            (advance (apply2 step) (tm2' step))
            (configuration c) (scheme' step) (maxActiveNodes c) (runtime c))
         (store' step)) /\
    (forall f,
       callScheme (applicationScheme c) t1 t2 st = Err f ->
       execute (S fuel) c st = Some (Err f)))) /\
  (forall c' st',
     execute fuel c st = Some (Ok (c', st')) ->
     finished (taskManager1 c') = true \/ finished (taskManager2 c') = true) /\
  (forall measure : EquivalenceChecker T -> nat,
     (forall c0, measure (skipSwaps c0) <= measure c0) ->
     (forall c0 st0 c1 st1,
        bothUnfinished c0 = true -> applyScheme c0 st0 = Ok (c1, st1) ->
        measure c1 < measure c0) ->
     exists res, execute (S (measure c)) c st = Some res).
Proof.
  intros t1 t2 swapped.
  assert (Hswapped : swapped = skipSwaps c) by reflexivity.
  split; [| split; [| split]].
  - intros Hdone. apply execute_exit. now apply bothUnfinished_false.
  - intros Hgo1 Hgo2.
    assert (Hgo : bothUnfinished c = true) by now apply bothUnfinished_true.
    split.
    + intros Hdone. rewrite (execute_iteration _ _ _ Hgo), <- Hswapped.
      assert (Hstop : bothUnfinished swapped = false)
        by now apply bothUnfinished_false.
      now rewrite Hstop.
    + intros Hgo1' Hgo2'.
      assert (Hmore : bothUnfinished swapped = true)
        by now apply bothUnfinished_true.
      split.
      * intros step Hcall.
        rewrite (execute_iteration _ _ _ Hgo), <- Hswapped, Hmore.
        unfold applyScheme. simpl. fold t1. fold t2. rewrite Hcall.
        reflexivity.
      * intros f Hcall.
        rewrite (execute_iteration _ _ _ Hgo), <- Hswapped, Hmore.
        unfold applyScheme. simpl. fold t1. fold t2. rewrite Hcall.
        reflexivity.
  - intros c' st' Hrun. apply bothUnfinished_false.
    exact (execute_leaves_one_finished _ _ _ Hrun).
  - intros measure Hswaps Hstep. now apply execute_terminates.
Qed.

(** [run] returns exactly when [execute] does. *)
Lemma run_returns_with_execute (vtable : Overrides T) start stop fuel c st :
  (exists res, run vtable start stop fuel c st = Some res) <->
  (exists res,
     execute fuel (initialize (v_initializeTask vtable) c) st = Some res).
Proof.
  unfold run.
  destruct (execute fuel (initialize (v_initializeTask vtable) c) st)
    as [[[c1 st1] | f] |].
  - destruct (v_checkEquivalence vtable (postprocess (finish c1))).
    split; eauto.
  - split; eauto.
  - split; intros [res Hres]; discriminate.
Qed.

(** C3, as the code has it.  The checker of [EquivalenceChecker.cpp] has no
    [done] flag: whatever a flag outside says, the loop of [execute] is left
    only through the test on the two task managers, and a run whose
    [checkEquivalence] answers with the verdict of the base class (as the
    base class and the simulation checker do) yields a verdict of [equals],
    which is never [NoInformation]. *)
Theorem run_never_yields_NoInformation (vtable : Overrides T)
    (done : bool) start stop fuel c st verdict c' st' :
  done = true ->
  (forall c0, fst (v_checkEquivalence vtable c0) = fst (checkEquivalence c0)) ->
  run vtable start stop fuel c st = Some (Ok (verdict, c', st')) ->
  verdict <> NoInformation /\
  (verdict = Equivalent \/ verdict = EquivalentUpToGlobalPhase \/
   verdict = EquivalentUpToPhase \/ verdict = NotEquivalent) /\
  (exists c1 st1,
     execute fuel (initialize (v_initializeTask vtable) c) st
       = Some (Ok (c1, st1)) /\
     (finished (taskManager1 c1) = true \/ finished (taskManager2 c1) = true) /\
     verdict = fst (checkEquivalence (postprocess (finish c1)))).
Proof.
  intros _ Hbase Hrun. unfold run in Hrun.
  destruct (execute fuel (initialize (v_initializeTask vtable) c) st)
    as [[[c1 st1] | f] |] eqn:Hexec; try discriminate.
  pose proof (Hbase (postprocess (finish c1))) as Hverdict.
  destruct (v_checkEquivalence vtable (postprocess (finish c1))) as [v c2].
  injection Hrun as <- <- <-. simpl in Hverdict.
  assert (Hrange :
    v = Equivalent \/ v = EquivalentUpToGlobalPhase \/
    v = EquivalentUpToPhase \/ v = NotEquivalent).
  { rewrite Hverdict. apply equals_range. }
  split; [| split; [exact Hrange |]].
  - destruct Hrange as [-> | [-> | [-> | ->]]]; discriminate.
  - exists c1, st1. split; [reflexivity |]. split.
    + apply bothUnfinished_false.
      exact (execute_leaves_one_finished _ _ _ Hexec).
    + exact Hverdict.
Qed.

End DriverProperties.

(** ** The simulation checker *)

Section SimulationProperties.
Context `{SchemeOps}.
Context `{!StateGeneratorOps}.

(** The override of [checkEquivalence] answers with the verdict of the base
    class. *)
Lemma checkEquivalence_verdict (c : EquivalenceChecker VectorDD) :
  fst (DDSimulationChecker.checkEquivalence c) = fst (checkEquivalence c).
Proof. reflexivity. Qed.

(** C10.  [setRandomInitialState] overwrites the member [nqubits] with the
    qubit count of [qc1] without ancillae and hands that one value to the
    state generator twice, as the number of qubits and as the number of
    ancillary qubits; the state the generator answers with becomes
    [initialState], and no other member of the checker changes. *)
Theorem setRandomInitialState_effect (generator : StateGenerator)
    (this : DDSimulationChecker.t) :
  let n := getNqubitsWithoutAncillae (qc1 (DDSimulationChecker.base this)) in
  let answer :=
    generateRandomState generator (dd (DDSimulationChecker.base this)) n n
      (stateType (simulation (configuration (DDSimulationChecker.base this)))) in
  let this' := fst (DDSimulationChecker.setRandomInitialState generator this) in
  nqubits (DDSimulationChecker.base this') = n /\
  DDSimulationChecker.initialState this' = fst answer /\
  snd (DDSimulationChecker.setRandomInitialState generator this) = snd answer /\
  qc1 (DDSimulationChecker.base this') = qc1 (DDSimulationChecker.base this) /\
  qc2 (DDSimulationChecker.base this') = qc2 (DDSimulationChecker.base this) /\
  dd (DDSimulationChecker.base this') = dd (DDSimulationChecker.base this) /\
  taskManager1 (DDSimulationChecker.base this') = taskManager1 (DDSimulationChecker.base this) /\
  taskManager2 (DDSimulationChecker.base this') = taskManager2 (DDSimulationChecker.base this) /\
  configuration (DDSimulationChecker.base this') = configuration (DDSimulationChecker.base this) /\
  applicationScheme (DDSimulationChecker.base this') = applicationScheme (DDSimulationChecker.base this) /\
  maxActiveNodes (DDSimulationChecker.base this') = maxActiveNodes (DDSimulationChecker.base this) /\
  runtime (DDSimulationChecker.base this') = runtime (DDSimulationChecker.base this).
Proof.
  intros n answer this'. subst this'.
  unfold DDSimulationChecker.setRandomInitialState. simpl. fold n. fold answer.
  destruct answer as [state generator']. simpl.
  repeat split; reflexivity.
Qed.

End SimulationProperties.

(** ** Termination of the loop on the instance *)

Section InstanceTermination.
Import XStrings.

Lemma skipSwapOperations_progress T (tm : Task T) :
  circuit (skipSwapOperations tm) = circuit tm /\
  cursor tm <= cursor (skipSwapOperations tm).
Proof.
  unfold skipSwapOperations.
  destruct (pendingSwaps _ _) as [k perm]. simpl. split; [reflexivity | lia].
Qed.

Lemma applyGate_progress T (tm : Task T) :
  circuit (applyGate tm) = circuit tm /\
  cursor tm <= cursor (applyGate tm) /\
  (isFinished tm = false -> cursor tm < cursor (applyGate tm)).
Proof.
  destruct (skipSwapOperations_progress tm) as [Hcircuit Hcursor].
  unfold applyGate.
  destruct (isFinished (skipSwapOperations tm)) eqn:Hend; simpl.
  - split; [exact Hcircuit |]. split; [exact Hcursor |].
    unfold isFinished in *. rewrite Hcircuit in Hend.
    intros Hgo. apply Nat.leb_le in Hend. apply Nat.leb_gt in Hgo. lia.
  - split; [exact Hcircuit |]. split; lia.
Qed.

Lemma advanceBy_progress T n : forall tm : Task T,
  circuit (advanceBy n tm) = circuit tm /\
  cursor tm <= cursor (advanceBy n tm) /\
  (0 < n -> isFinished tm = false -> cursor tm < cursor (advanceBy n tm)).
Proof.
  induction n as [| n IH]; intros tm.
  - simpl. split; [reflexivity |]. split; [lia | intros; lia].
  - unfold advanceBy in *. simpl.
    destruct (IH tm) as (Hcircuit & Hcursor & _).
    destruct (applyGate_progress (Nat.iter n (@applyGate T) tm))
      as (Hcircuit' & Hcursor' & Hstrict).
    split; [congruence |]. split; [lia |].
    intros _ Hgo.
    destruct (Nat.eq_dec (cursor (Nat.iter n (@applyGate T) tm)) (cursor tm))
      as [Hsame | Hmoved]; [| lia].
    assert (Hgo' : isFinished (Nat.iter n (@applyGate T) tm) = false).
    { unfold isFinished in *. now rewrite Hcircuit, Hsame. }
    specialize (Hstrict Hgo'). lia.
Qed.

Lemma remaining_le T (tm tm' : Task T) :
  circuit tm' = circuit tm -> cursor tm <= cursor tm' ->
  remaining tm' <= remaining tm.
Proof. unfold remaining. intros ->. lia. Qed.

Lemma remaining_lt T (tm tm' : Task T) :
  circuit tm' = circuit tm -> cursor tm < cursor tm' ->
  isFinished tm = false ->
  remaining tm' < remaining tm.
Proof.
  unfold remaining, isFinished. intros -> Hlt Hgo.
  apply Nat.leb_gt in Hgo. lia.
Qed.

Lemma advanceBy_remaining T n (tm : Task T) :
  remaining (advanceBy n tm) <= remaining tm /\
  (0 < n -> isFinished tm = false -> remaining (advanceBy n tm) < remaining tm).
Proof.
  destruct (advanceBy_progress n tm) as (Hcircuit & Hcursor & Hstrict).
  split; [now apply remaining_le |].
  intros Hn Hgo. apply remaining_lt; auto.
Qed.

Lemma pending_skipSwaps T (c : EquivalenceChecker T) :
  pending (skipSwaps c) <= pending c.
Proof.
  unfold pending, skipSwaps. simpl.
  destruct (skipSwapOperations_progress (taskManager1 c)) as [Hc1 Hk1].
  destruct (skipSwapOperations_progress (taskManager2 c)) as [Hc2 Hk2].
  pose proof (remaining_le _ _ Hc1 Hk1). pose proof (remaining_le _ _ Hc2 Hk2).
  lia.
Qed.

(** A scheme that asks for at least one gate of the first circuit makes
    progress. *)
Lemma pending_after_advance T (tm1 tm2 : Task T) a1 a2 :
  isFinished tm1 = false -> 0 < a1 \/ (0 < a2 /\ isFinished tm2 = false) ->
  remaining (advanceBy a1 tm1) + remaining (advanceBy a2 tm2)
  < remaining tm1 + remaining tm2.
Proof.
  intros Hgo1 Hsome.
  destruct (advanceBy_remaining a1 tm1) as [Hle1 Hlt1].
  destruct (advanceBy_remaining a2 tm2) as [Hle2 Hlt2].
  destruct Hsome as [Ha1 | [Ha2 Hgo2]].
  - specialize (Hlt1 Ha1 Hgo1). lia.
  - specialize (Hlt2 Ha2 Hgo2). lia.
Qed.

Local Arguments advanceBy : simpl never.
Local Arguments Nat.max : simpl never.
Local Arguments Nat.div : simpl never.

Lemma pending_applyScheme T (c : EquivalenceChecker T) st c' st' :
  bothUnfinished c = true -> applyScheme c st = Ok (c', st') ->
  pending c' < pending c.
Proof.
  intros Hgo Happly.
  apply bothUnfinished_true in Hgo as [Hgo1 Hgo2].
  destruct c as [q1 q2 n pkg tm1 tm2 cfg a nodes time].
  unfold applyScheme, pending in *. simpl in *.
  destruct a as [T | T | m | T location | T cost]; simpl in Happly.
  - injection Happly as <- <-. simpl.
    apply pending_after_advance; [assumption | left; lia].
  - destruct (List.length (ops (circuit tm1)) <=? List.length (ops (circuit tm2)));
      simpl in Happly; injection Happly as <- <-; simpl;
      (apply pending_after_advance; [assumption | left; lia]).
  - destruct (Lookahead.call _) as [[[a1 a2] s] | f] eqn:Hcall;
      [| discriminate].
    simpl in Happly. injection Happly as <- <-. simpl.
    match type of Hcall with
    | Lookahead.call ?loaded = _ =>
        destruct (frame_after_caching loaded) as (_ & Htm1 & Htm2 & _ & _)
    end.
    cbv zeta in Htm1, Htm2. simpl in Htm1, Htm2.
    unfold Lookahead.call in Hcall.
    destruct (assert _ _); [| discriminate]. simpl in Hcall.
    destruct (assert _ _); [| discriminate]. simpl in Hcall.
    set (cached := Lookahead.cacheOp2 (Lookahead.cacheOp1 _)) in *.
    destruct (_ <=? _); simpl in Hcall.
    + rewrite Htm1 in Hcall. simpl in Hgo1. rewrite Hgo1 in Hcall.
      injection Hcall as <- <- <-. simpl. rewrite ?Htm1, ?Htm2.
      unfold advanceBy, remaining. simpl.
      unfold isFinished in Hgo1. apply Nat.leb_gt in Hgo1. lia.
    + rewrite Htm2 in Hcall. simpl in Hgo2. rewrite Hgo2 in Hcall.
      injection Hcall as <- <- <-. simpl. rewrite ?Htm1, ?Htm2.
      unfold advanceBy, remaining. simpl.
      unfold isFinished in Hgo2. apply Nat.leb_gt in Hgo2. lia.
  - injection Happly as <- <-. simpl.
    apply pending_after_advance; [assumption | left; lia].
  - injection Happly as <- <-. simpl.
    apply pending_after_advance; [assumption | left; lia].
Qed.

(** On the instance the loop of [execute] always comes to an end: one unit
    of fuel more than there are gates pending suffices. *)
Lemma execute_instance_terminates T (c : EquivalenceChecker T) (st : Store) :
  exists res, execute (S (pending c)) c st = Some res.
Proof.
  apply (execute_terminates (@pending T)).
  - apply pending_skipSwaps.
  - apply pending_applyScheme.
Qed.

End InstanceTermination.

(** ** Evaluations on the instance *)

Section EqualsWitnesses.
Import XStrings.

Lemma equals_matrix_distinct_nodes_witness :
  let e : DD MatrixDD := mkEdge MatrixDD 1 true in
  let f : DD MatrixDD := mkEdge MatrixDD 2 true in
  p e <> p f /\ equals defaults e f = NotEquivalent.
Proof.
  intros e f.
  assert (Hne : p e <> p f) by (simpl; lia).
  split; [exact Hne |].
  apply (proj2 (proj2 (equals_matrix_distinct_nodes defaults e f Hne))).
  reflexivity.
Defined.

Lemma equals_vector_distinct_nodes_witness :
  let e : DD VectorDD := mkEdge VectorDD 0 true in
  let f : DD VectorDD := mkEdge VectorDD 3 true in
  p e <> p f /\ equals defaults e f = NotEquivalent.
Proof.
  intros e f.
  assert (Hne : p e <> p f) by (simpl; lia).
  split; [exact Hne |].
  apply (proj2 (proj2 (equals_vector_distinct_nodes defaults e f Hne)));
    reflexivity.
Defined.

Lemma equals_same_node_witness :
  let e : DD MatrixDD := mkEdge MatrixDD 5 true in
  let f : DD MatrixDD := mkEdge MatrixDD 5 false in
  p e = p f /\
  equals defaults e f = EquivalentUpToGlobalPhase /\
  equals defaults e e = Equivalent.
Proof.
  intros e f.
  split; [reflexivity |]. split.
  - exact (proj1 (equals_same_node defaults MatrixDD) e f eq_refl).
  - exact (proj2 (equals_same_node defaults MatrixDD) e eq_refl).
Defined.

End EqualsWitnesses.

Section ConstructorWitnesses.
Import XStrings.

Lemma constructor_taskManager2_on_qc1_witness :
  exists c,
    EquivalenceChecker_new MatrixDD oneX threeX defaults = Ok c /\
    qc2 c = threeX /\
    taskManager2 c = TaskManager_new MatrixDD oneX (dd c) /\
    circuit (taskManager2 c) = oneX.
Proof.
  eexists. split; [reflexivity |]. split; [reflexivity |].
  pose proof (constructor_taskManager2_on_qc1 (T:=MatrixDD) oneX threeX
                defaults eq_refl) as (Htm2 & _ & _).
  split; [exact Htm2 |]. rewrite Htm2. reflexivity.
Defined.

Lemma lookahead_only_for_matrix_checkers_witness :
  scheme (application withLookahead) = Lookahead_t /\
  raises (EquivalenceChecker_new VectorDD oneX oneX withLookahead)
         UnsupportedSchemeForDDType /\
  exists c,
    EquivalenceChecker_new MatrixDD oneX oneX withLookahead = Ok c /\
    isLookahead (applicationScheme c) = true.
Proof.
  split; [reflexivity |].
  pose proof (lookahead_only_for_matrix_checkers oneX oneX
                withLookahead eq_refl) as (Hvector & _ & Hmatrix).
  split; [exact Hvector | exact Hmatrix].
Defined.

End ConstructorWitnesses.

Section LookaheadWitnesses.
Import XStrings.
Import Lookahead.

Lemma lookahead_call_needs_both_links_witness :
  (internalState unlinked = nullptr \/ package unlinked = nullptr) /\
  raises (Lookahead.call unlinked) UninitializedScheme /\
  internalState atStart = linked /\ package atStart = linked /\
  ~ raises (Lookahead.call atStart) UninitializedScheme.
Proof.
  split; [left; reflexivity |].
  split.
  - apply (proj1 (lookahead_call_needs_both_links unlinked)).
    left. reflexivity.
  - split; [reflexivity |]. split; [reflexivity |].
    exact (proj1 (proj2 (lookahead_call_needs_both_links atStart)
                        eq_refl eq_refl)).
Defined.

(** A tie between the two X gates: side 1 is applied and the first cursor
    moves. *)
Lemma lookahead_tie_takes_side1_witness :
  internalState atStart = linked /\ package atStart = linked /\
  size (multiply (getDD (taskManager1 atStart)) (cell atStart)) =
  size (multiply (cell atStart) (getInverseDD (taskManager2 atStart))) /\
  finished (taskManager1 atStart) = false /\
  exists s',
    Lookahead.call atStart = Ok ((0, 0), s') /\
    cell s' = mkEdge MatrixDD 1 true /\
    cursor (taskManager1 s') = 1 /\
    cursor (taskManager2 s') = 0.
Proof.
  split; [reflexivity |]. split; [reflexivity |].
  split; [reflexivity |]. split; [reflexivity |].
  destruct (lookahead_tie_takes_side1 atStart eq_refl eq_refl)
    as (s' & Hcall & Htie).
  exists s'. split; [exact Hcall |].
  destruct (Htie eq_refl) as (Htm2 & _ & Hunfinished & _).
  destruct (Hunfinished eq_refl) as (Hcell & Htm1 & _).
  rewrite Hcell, Htm1, Htm2. repeat split.
Defined.

(** C7 as the claim words it fails where the first task manager is
    finished: the sizes tie and side 1 is taken, yet the internal state does
    not end as [op1 * saved], and the cursor of [taskManager1] is not
    advanced. *)
Lemma lookahead_tie_at_end_counterexample :
  let s := atEndOfFirst in
  let saved := cell s in
  internalState s = linked /\ package s = linked /\
  size (multiply (op1 s) saved)
    = size (multiply saved (getInverseDD (taskManager2 s))) /\
  exists s',
    Lookahead.call s = Ok ((0, 0), s') /\
    cell s' <> multiply (op1 s) saved /\
    taskManager1 s' <> advanceIterator (taskManager1 s) /\
    taskManager1 s' = taskManager1 s /\
    cell s' = multiply (multiply (op1 s) saved)
                       (getInverseDD (taskManager2 s)).
Proof.
  cbv zeta.
  split; [reflexivity |]. split; [reflexivity |]. split; [reflexivity |].
  eexists. split; [vm_compute; reflexivity |].
  split; [vm_compute; discriminate |].
  split; [vm_compute; discriminate |].
  split; reflexivity.
Qed.

End LookaheadWitnesses.

Section DriverWitnesses.
Import XStrings.

(** [returned name term] evaluates [term] and names the value it returns. *)
Ltac returned name term :=
  let v := eval vm_compute in term in
  match v with
  | Ok ?a => pose (name := a)
  | Some (Ok ?a) => pose (name := a)
  end.

(** One-to-one application over a circuit of two gates: two iterations, and
    both cursors are at the end. *)
Lemma execute_runs_until_one_finished_witness :
  exists c c' st',
    EquivalenceChecker_new VectorDD twoX twoX defaults = Ok c /\
    execute 3 c emptyStore = Some (Ok (c', st')) /\
    (finished (taskManager1 c') = true \/ finished (taskManager2 c') = true) /\
    cursor (taskManager1 c') = 2 /\
    exists res, execute (S (pending c)) c emptyStore = Some res.
Proof.
  returned c (EquivalenceChecker_new VectorDD twoX twoX defaults).
  returned after (execute 3 c emptyStore).
  exists c, (fst after), (snd after).
  split; [reflexivity |].
  assert (Hrun : execute 3 c emptyStore = Some (Ok (fst after, snd after)))
    by (vm_compute; reflexivity).
  split; [exact Hrun |].
  destruct (execute_runs_until_one_finished 3 c emptyStore)
    as (_ & _ & Hleft & Hends).
  split; [exact (Hleft _ _ Hrun) |].
  split; [reflexivity |].
  exact (Hends (@pending VectorDD) (@pending_skipSwaps VectorDD)
               (@pending_applyScheme VectorDD)).
Defined.

(** C2 as the claim words it fails: under the lookahead scheme, linked as
    the alternating checker links it, the loop over a circuit of one gate is
    left after one iteration, when the first task manager is finished and
    the second one is not. *)
Lemma execute_leaves_one_unfinished_counterexample :
  exists c c' st',
    EquivalenceChecker_new MatrixDD oneX oneX withLookahead = Ok c /\
    execute 2
      (set_applicationScheme
         (DDAlternatingChecker.linkScheme (applicationScheme c)) c)
      emptyStore = Some (Ok (c', st')) /\
    finished (taskManager1 c') = true /\
    finished (taskManager2 c') = false.
Proof.
  returned c (EquivalenceChecker_new MatrixDD oneX oneX withLookahead).
  returned after
    (execute 2
       (set_applicationScheme
          (DDAlternatingChecker.linkScheme (applicationScheme c)) c)
       emptyStore).
  exists c, (fst after), (snd after).
  split; [reflexivity |].
  split; [vm_compute; reflexivity |].
  split; reflexivity.
Qed.

(** A run of the simulation checker on twice the same X gate, with the flag
    of the surrounding manager set: the verdict is [Equivalent]. *)
Lemma run_never_yields_NoInformation_witness :
  exists this verdict c' st',
    DDSimulationChecker.new oneX oneX defaults = Ok this /\
    run (DDSimulationChecker.vtable this) 0 0 2
        (DDSimulationChecker.base this) emptyStore
      = Some (Ok (verdict, c', st')) /\
    verdict = Equivalent /\ verdict <> NoInformation.
Proof.
  returned this (DDSimulationChecker.new oneX oneX defaults).
  returned outcome (run (DDSimulationChecker.vtable this) 0 0 2
                        (DDSimulationChecker.base this) emptyStore).
  exists this, (fst (fst outcome)), (snd (fst outcome)), (snd outcome).
  split; [reflexivity |].
  assert (Hrun :
    run (DDSimulationChecker.vtable this) 0 0 2
        (DDSimulationChecker.base this) emptyStore
    = Some (Ok (fst (fst outcome), snd (fst outcome), snd outcome)))
    by (vm_compute; reflexivity).
  split; [exact Hrun |]. split; [reflexivity |].
  exact (proj1 (run_never_yields_NoInformation
                  (DDSimulationChecker.vtable this) (done:=true) 0 0 2
                  (DDSimulationChecker.base this) emptyStore
                  eq_refl (fun _ => eq_refl) Hrun)).
Defined.

(** C3 as the claim words it fails: no flag, set or not, makes this run
    yield [NoInformation]. *)
Lemma run_with_done_set_counterexample :
  ~ (forall (done : bool) this verdict c' st',
       done = true ->
       DDSimulationChecker.new oneX oneX defaults = Ok this ->
       run (DDSimulationChecker.vtable this) 0 0 2
           (DDSimulationChecker.base this) emptyStore
         = Some (Ok (verdict, c', st')) ->
       verdict = NoInformation).
Proof.
  intros Hclaim.
  returned this (DDSimulationChecker.new oneX oneX defaults).
  returned outcome (run (DDSimulationChecker.vtable this) 0 0 2
                        (DDSimulationChecker.base this) emptyStore).
  assert (Hrun :
    run (DDSimulationChecker.vtable this) 0 0 2
        (DDSimulationChecker.base this) emptyStore
    = Some (Ok (Equivalent, snd (fst outcome), snd outcome)))
    by (vm_compute; reflexivity).
  specialize (Hclaim true this _ _ _ eq_refl eq_refl Hrun).
  discriminate Hclaim.
Qed.

(** The generator of the instance records what it is called with: a
    circuit of three qubits, one of them ancillary, makes the checker ask
    for a state on two qubits with two ancillary qubits. *)
Lemma setRandomInitialState_effect_witness :
  exists this,
    DDSimulationChecker.new withAncilla oneX defaults = Ok this /\
    nqubits (DDSimulationChecker.base this) = 3 /\
    let '(this', generator) :=
      DDSimulationChecker.setRandomInitialState freshGenerator this in
    nqubits (DDSimulationChecker.base this') = 2 /\
    generator = [(make_unique_Package 3, 2, 2, ComputationalBasis)].
Proof.
  returned this (DDSimulationChecker.new withAncilla oneX defaults).
  exists this. split; [reflexivity |]. split; [reflexivity |].
  pose proof (setRandomInitialState_effect freshGenerator this)
    as (Hn & _ & Hgen & _).
  destruct (DDSimulationChecker.setRandomInitialState freshGenerator this)
    as [this' generator].
  simpl in Hn, Hgen. rewrite Hn, Hgen. split; reflexivity.
Defined.

End DriverWitnesses.

(** * Further properties of the embedded code *)

(** ** [LookaheadApplicationScheme::operator()] *)

Section LookaheadFurther.
Context `{TaskManagerOps}.
Import Lookahead.



(** The state a call that passes the assertions returns, spelled out. *)
Lemma call_linked_shape (s : State) :
  internalState s = linked -> package s = linked ->
  let c := cacheOp2 (cacheOp1 s) in
  let saved := cell s in
  let dd1 := multiply (op1 c) saved in
  let dd2 := multiply saved (op2 c) in
  Lookahead.call s =
  Ok ((0, 0),
      if size dd1 <=? size dd2 then
        let s1 := trackReferences saved
                    (set_cached1 false (pkg (decRef (op1 c)) (set_cell dd1 c))) in
        if finished (taskManager1 s) then flushOp2 s1
        else set_taskManager1 (advanceIterator (taskManager1 s)) s1
      else
        let s2 := trackReferences saved
                    (set_cached2 false (pkg (decRef (op2 c)) (set_cell dd2 c))) in
        if finished (taskManager2 s) then flushOp1 s2
        else set_taskManager2 (advanceIterator (taskManager2 s)) s2).
Proof.
  intros Hstate Hpackage c saved dd1 dd2.
  unfold call. rewrite Hstate, Hpackage. simpl.
  destruct (frame_after_caching s) as (Hcell & Htm1 & Htm2 & _ & _).
  cbv zeta in Hcell, Htm1, Htm2. fold c in Hcell, Htm1, Htm2.
  fold c. rewrite Hcell. fold saved. fold dd1. fold dd2.
  destruct (size dd1 <=? size dd2); simpl; rewrite ?Htm1, ?Htm2;
    match goal with
    | |- context [if ?b then _ else _] => destruct b
    end; reflexivity.
Qed.




Lemma links_after_caching (s : State) :
  internalState (cacheOp2 (cacheOp1 s)) = internalState s /\
  package (cacheOp2 (cacheOp1 s)) = package s.
Proof.
  unfold cacheOp2, cacheOp1.
  destruct (cached1 s); simpl; destruct (cached2 s); simpl; auto.
Qed.

(** A call that returns was made with both links set. *)
Lemma call_Ok_linked (s : State) result s' :
  Lookahead.call s = Ok (result, s') ->
  internalState s = linked /\ package s = linked.
Proof.
  intros Hcall.
  destruct (internalState s) eqn:Hstate.
  - rewrite (call_unlinked_state s Hstate) in Hcall. discriminate.
  - destruct (package s) eqn:Hpackage; [| auto].
    rewrite (call_unlinked_package s Hstate Hpackage) in Hcall. discriminate.
Qed.

(** Unfolds the state a call returns, together with what is known of the
    state after caching. *)
Ltac by_call_shape s Hstate Hpackage :=
  rewrite (call_linked_shape s Hstate Hpackage); cbv zeta;
  let Hcell := fresh "Hcell" in
  let Htm1 := fresh "Htm1" in
  let Htm2 := fresh "Htm2" in
  let Hc1 := fresh "Hc1" in
  let Hc2 := fresh "Hc2" in
  destruct (frame_after_caching s) as (Hcell & Htm1 & Htm2 & Hc1 & Hc2);
  cbv zeta in Hcell, Htm1, Htm2, Hc1, Hc2;
  rewrite ?op1_after_caching, ?op2_after_caching.

(** X1.  The mirror image of the tie: when the product from the left is
    strictly larger than the product from the right, side 2 is taken.
    [op2] leaves the cache and the cursor of [taskManager1] stays.  If
    [taskManager2] is not finished the internal state is [saved * op2] and
    its cursor is advanced by one, [op1] staying cached; if it is finished,
    no cursor moves and the pending [op1] is multiplied in from the left. *)
Theorem lookahead_larger_left_takes_side2 (s : State) :
  internalState s = linked -> package s = linked ->
  let pending1 := if cached1 s then op1 s else getDD (taskManager1 s) in
  let pending2 := if cached2 s then op2 s else getInverseDD (taskManager2 s) in
  let saved := cell s in
  let dd1 := multiply pending1 saved in
  let dd2 := multiply saved pending2 in
  size dd2 < size dd1 ->
  exists s',
    Lookahead.call s = Ok ((0, 0), s') /\
    taskManager1 s' = taskManager1 s /\ cached2 s' = false /\
    (finished (taskManager2 s) = false ->
     cell s' = dd2 /\
     taskManager2 s' = advanceIterator (taskManager2 s) /\
     cached1 s' = true /\ op1 s' = pending1) /\
    (finished (taskManager2 s) = true ->
     cell s' = multiply pending1 dd2 /\
     taskManager2 s' = taskManager2 s /\
     cached1 s' = false).
Proof.
  intros Hstate Hpackage pending1 pending2 saved dd1 dd2 Hlarger.
  by_call_shape s Hstate Hpackage.
  fold pending1. fold pending2. fold saved. fold dd1. fold dd2.
  apply Nat.leb_gt in Hlarger. rewrite Hlarger.
  eexists. split; [reflexivity |].
  destruct (finished (taskManager2 s)) eqn:Hfin.
  - unfold flushOp1. simpl. rewrite Hc1. simpl.
    rewrite Htm1, Htm2, op1_after_caching. fold pending1.
    repeat split; try reflexivity; intros; discriminate.
  - simpl. rewrite Htm1, Hc1, op1_after_caching. fold pending1.
    repeat split; try reflexivity; intros; discriminate.
Qed.

(** X2.  Called as the driver calls it, with neither task manager
    finished, the scheme is greedy: the new internal state is one of the two
    candidate products and has the smaller of their two sizes, and exactly
    one cursor has been advanced, the one of the side whose product was
    kept. *)
Theorem lookahead_keeps_smaller_product (s : State) :
  internalState s = linked -> package s = linked ->
  finished (taskManager1 s) = false -> finished (taskManager2 s) = false ->
  let pending1 := if cached1 s then op1 s else getDD (taskManager1 s) in
  let pending2 := if cached2 s then op2 s else getInverseDD (taskManager2 s) in
  let dd1 := multiply pending1 (cell s) in
  let dd2 := multiply (cell s) pending2 in
  exists s',
    Lookahead.call s = Ok ((0, 0), s') /\
    size (cell s') = Nat.min (size dd1) (size dd2) /\
    ((cell s' = dd1 /\
      taskManager1 s' = advanceIterator (taskManager1 s) /\
      taskManager2 s' = taskManager2 s) \/
     (cell s' = dd2 /\
      taskManager1 s' = taskManager1 s /\
      taskManager2 s' = advanceIterator (taskManager2 s))).
Proof.
  intros Hstate Hpackage Hgo1 Hgo2 pending1 pending2 dd1 dd2.
  by_call_shape s Hstate Hpackage.
  fold pending1. fold pending2. fold dd1. fold dd2.
  rewrite Hgo1, Hgo2.
  destruct (size dd1 <=? size dd2) eqn:Hle; eexists;
    (split; [reflexivity |]); simpl; rewrite ?Htm1, ?Htm2.
  - apply Nat.leb_le in Hle. split; [lia | left; auto].
  - apply Nat.leb_gt in Hle. split; [lia | right; auto].
Qed.

(** X3.  A call never leaves both caches full: the operation of the side it
    applied is always released.  When neither task manager was finished,
    exactly one operation stays cached, that of the other side. *)
Theorem lookahead_cache_after_call (s : State) result s' :
  Lookahead.call s = Ok (result, s') ->
  (cached1 s' = false \/ cached2 s' = false) /\
  (finished (taskManager1 s) = false -> finished (taskManager2 s) = false ->
   cachedCount s' = 1).
Proof.
  intros Hcall.
  destruct (call_Ok_linked _ Hcall) as [Hstate Hpackage].
  revert Hcall. by_call_shape s Hstate Hpackage.
  intros Hcall. injection Hcall as _ <-.
  unfold cachedCount, flushOp1, flushOp2.
  destruct (size _ <=? size _);
    [destruct (finished (taskManager1 s)) | destruct (finished (taskManager2 s))];
    simpl; rewrite ?Hc1, ?Hc2; simpl;
    (split; [auto | intros; try discriminate; reflexivity]).
Qed.


(** A call leaves the two links as they are. *)
Lemma call_keeps_links (s : State) result s' :
  Lookahead.call s = Ok (result, s') ->
  internalState s' = linked /\ package s' = linked.
Proof.
  intros Hcall.
  destruct (call_Ok_linked _ Hcall) as [Hstate Hpackage].
  revert Hcall. by_call_shape s Hstate Hpackage.
  intros Hcall. injection Hcall as _ <-.
  unfold flushOp1, flushOp2.
  destruct (size _ <=? size _);
    [destruct (finished (taskManager1 s))
    | destruct (finished (taskManager2 s))];
    simpl; rewrite ?Hc1, ?Hc2; simpl;
    destruct (links_after_caching s) as [-> ->]; auto.
Qed.

(** X5.  A call never touches the two links: a scheme that has answered
    once is still linked, so that the next call passes both assertions
    again. *)
Theorem lookahead_links_survive (s : State) result s' :
  Lookahead.call s = Ok (result, s') ->
  internalState s' = linked /\ package s' = linked /\
  exists s'', Lookahead.call s' = Ok ((0, 0), s'').
Proof.
  intros Hcall.
  destruct (call_keeps_links _ Hcall) as [Hstate' Hpackage'].
  split; [exact Hstate' |]. split; [exact Hpackage' |].
  now apply call_linked_returns.
Qed.

End LookaheadFurther.

(** ** The constructor and the driver *)

Section DriverFurther.
Context `{SchemeOps}.
Context `{!MoveSemantics}.

(** X6.  The exception of the constructor is thrown in one situation only:
    the constructor fails with [UnsupportedSchemeForDDType] exactly when a
    checker over vector diagrams is asked for with the lookahead scheme.  It
    is never thrown for matrix diagrams nor for any other scheme, and the
    constructor fails in no other way. *)
Theorem constructor_throws_only_for_lookahead_on_vectors T qc1 qc2
    configuration :
  (raises (EquivalenceChecker_new T qc1 qc2 configuration)
          UnsupportedSchemeForDDType <->
   T = VectorDD /\ scheme (application configuration) = Lookahead_t) /\
  (forall f,
     EquivalenceChecker_new T qc1 qc2 configuration = Err f ->
     f = runtime_error lookahead_only_for_matrices).
Proof.
  assert (Hnever : forall c : EquivalenceChecker T,
            (T = VectorDD /\ scheme (application configuration) = Lookahead_t
             -> False) ->
            (raises (Ok c) UnsupportedSchemeForDDType <->
             T = VectorDD /\ scheme (application configuration) = Lookahead_t)
            /\ (forall f, Ok c = Err f ->
                            f = runtime_error lookahead_only_for_matrices)).
  { intros c Hno. split; [split |].
    - intros (f & Herr & _). discriminate Herr.
    - intros Hyes. destruct (Hno Hyes).
    - intros f Herr. discriminate Herr. }
  unfold EquivalenceChecker_new, makeApplicationScheme. cbv zeta.
  destruct (scheme (application configuration)) eqn:Hscheme; simpl;
    try (apply Hnever; intros [_ Hno]; discriminate Hno).
  - destruct T; simpl.
    + split; [split |].
      * intros _. split; reflexivity.
      * intros _. eexists. split; reflexivity.
      * intros f Herr. congruence.
    + apply Hnever. intros [Hno _]. discriminate Hno.
  - destruct (useProfile (application configuration)); simpl;
      apply Hnever; intros [_ Hno]; discriminate Hno.
Qed.

Variable T : DDType.
Implicit Type c : EquivalenceChecker T.



End DriverFurther.

(** ** The driver under the lookahead scheme *)

Section LookaheadDriver.
Context `{SchemeOps}.
Implicit Type c : EquivalenceChecker MatrixDD.

(** A step of a linked lookahead scheme succeeds and leaves a linked
    lookahead scheme. *)
Lemma applyScheme_linked c m st :
  applicationScheme c = LookaheadApplicationScheme m ->
  the_internalState m = linked -> the_package m = linked ->
  exists c' st' m',
    applyScheme c st = Ok (c', st') /\
    applicationScheme c' = LookaheadApplicationScheme m' /\
    the_internalState m' = linked /\ the_package m' = linked.
Proof.
  intros Hscheme Hstate Hpackage.
  unfold applyScheme. rewrite Hscheme. simpl.
  destruct (call_linked_returns
              (Lookahead_load m (taskManager1 c) (taskManager2 c) st)
              Hstate Hpackage) as [s' Hcall].
  rewrite Hcall. simpl.
  destruct (call_keeps_links _ Hcall) as [Hstate' Hpackage'].
  eexists. eexists. eexists. split; [reflexivity |]. simpl.
  split; [reflexivity |]. split; assumption.
Qed.

Lemma execute_linked fuel : forall c m st,
  applicationScheme c = LookaheadApplicationScheme m ->
  the_internalState m = linked -> the_package m = linked ->
  (forall f, execute fuel c st <> Some (Err f)) /\
  (forall c' st',
     execute fuel c st = Some (Ok (c', st')) ->
     exists m',
       applicationScheme c' = LookaheadApplicationScheme m' /\
       the_internalState m' = linked /\ the_package m' = linked).
Proof.
  induction fuel as [| fuel IH]; intros c m st Hscheme Hstate Hpackage.
  - simpl. destruct (bothUnfinished c).
    + split; [intros f; discriminate | intros c' st'; discriminate].
    + split; [intros f; discriminate |].
      intros c' st' Hrun. injection Hrun as <- <-. eauto.
  - destruct (bothUnfinished c) eqn:Hgo.
    + rewrite (execute_iteration _ _ _ Hgo).
      destruct (bothUnfinished (skipSwaps c)).
      * destruct (applyScheme_linked (skipSwaps c) st Hscheme Hstate Hpackage)
          as (c1 & st1 & m1 & Happly & Hscheme1 & Hstate1 & Hpackage1).
        rewrite Happly. exact (IH c1 m1 st1 Hscheme1 Hstate1 Hpackage1).
      * split; [intros f; discriminate |].
        intros c' st' Hrun. injection Hrun as <- <-. simpl. eauto.
    + rewrite (execute_exit _ _ _ Hgo).
      split; [intros f; discriminate |].
      intros c' st' Hrun. injection Hrun as <- <-. eauto.
Qed.

(** X7.  Once the alternating checker has linked a lookahead scheme to its
    running diagram and its package, the loop of [execute] cannot fail: no
    call of the scheme raises anything, and the scheme the loop leaves
    behind is still a linked lookahead scheme.  The wiring step itself
    links any lookahead scheme and keeps what it has cached. *)
Theorem linked_lookahead_never_fails fuel c m st :
  applicationScheme c = LookaheadApplicationScheme m ->
  the_internalState m = linked -> the_package m = linked ->
  (forall f, execute fuel c st <> Some (Err f)) /\
  (forall c' st',
     execute fuel c st = Some (Ok (c', st')) ->
     exists m',
       applicationScheme c' = LookaheadApplicationScheme m' /\
       the_internalState m' = linked /\ the_package m' = linked) /\
  (forall m0,
     DDAlternatingChecker.linkScheme (LookaheadApplicationScheme m0) =
     LookaheadApplicationScheme
       (mkMembers (the_op1 m0) (the_op2 m0) (the_cached1 m0) (the_cached2 m0)
                  linked linked)).
Proof.
  intros Hscheme Hstate Hpackage.
  destruct (execute_linked fuel c st Hscheme Hstate Hpackage) as [Hno Hkeeps].
  split; [exact Hno |]. split; [exact Hkeeps |]. reflexivity.
Qed.

(** X8.  With a lookahead scheme one of whose links is still null, the loop
    fails on its first scheme call: as soon as an iteration finds both task
    managers unfinished after their SWAPs, [execute] ends with
    [UninitializedScheme], whatever fuel is left. *)
Theorem unlinked_lookahead_fails_at_first_call fuel c m st :
  applicationScheme c = LookaheadApplicationScheme m ->
  the_internalState m = nullptr \/ the_package m = nullptr ->
  finished (taskManager1 c) = false -> finished (taskManager2 c) = false ->
  finished (applySwapOperations (taskManager1 c)) = false ->
  finished (applySwapOperations (taskManager2 c)) = false ->
  exists f,
    execute (S fuel) c st = Some (Err f) /\
    errorKind f = Some UninitializedScheme.
Proof.
  intros Hscheme Hnull Hgo1 Hgo2 Hgo1' Hgo2'.
  assert (Hgo : bothUnfinished c = true) by now apply bothUnfinished_true.
  assert (Hgo' : bothUnfinished (skipSwaps c) = true)
    by now apply bothUnfinished_true.
  rewrite (execute_iteration _ _ _ Hgo), Hgo'.
  unfold applyScheme. simpl. rewrite Hscheme. simpl.
  set (s := Lookahead_load m _ _ st).
  destruct (the_internalState m) eqn:Hstate.
  - rewrite (call_unlinked_state s Hstate). simpl.
    eexists. split; reflexivity.
  - destruct Hnull as [Hnull | Hnull]; [discriminate |].
    rewrite (call_unlinked_package s Hstate Hnull). simpl.
    eexists. split; reflexivity.
Qed.

End LookaheadDriver.

(** ** Runs of the simulation checker *)

Section SimulationRuns.
Context `{SchemeOps}.
Context `{!MoveSemantics}.
Context `{!StateGeneratorOps}.

Section AnyFlavour.
Variable T : DDType.
Implicit Type c : EquivalenceChecker T.

(** No member function of the driver reads the second circuit: storing
    another one commutes with every step. *)
Lemma applyScheme_set_qc2 q c st :
  applyScheme (set_qc2 q c) st =
  match applyScheme c st with
  | Ok (c', st') => Ok (set_qc2 q c', st')
  | Err f => Err f
  end.
Proof.
  unfold applyScheme. simpl.
  destruct (callScheme _ _ _ _) as [step | f]; reflexivity.
Qed.

Lemma execute_set_qc2 q fuel : forall c st,
  execute fuel (set_qc2 q c) st =
  match execute fuel c st with
  | Some (Ok (c', st')) => Some (Ok (set_qc2 q c', st'))
  | Some (Err f) => Some (Err f)
  | None => None
  end.
Proof.
  induction fuel as [| fuel IH]; intros c st.
  - simpl. change (bothUnfinished (set_qc2 q c)) with (bothUnfinished c).
    destruct (bothUnfinished c); reflexivity.
  - simpl. change (bothUnfinished (set_qc2 q c)) with (bothUnfinished c).
    destruct (bothUnfinished c); [| reflexivity].
    change (skipSwaps (set_qc2 q c)) with (set_qc2 q (skipSwaps c)).
    change (bothUnfinished (set_qc2 q (skipSwaps c)))
      with (bothUnfinished (skipSwaps c)).
    destruct (bothUnfinished (skipSwaps c)); [| apply IH].
    rewrite applyScheme_set_qc2.
    destruct (applyScheme (skipSwaps c) st) as [[c1 st1] | f];
      [apply IH | reflexivity].
Qed.

Lemma run_set_qc2 (vtable : Overrides T) q start stop fuel c st :
  (forall c0,
     fst (v_checkEquivalence vtable (set_qc2 q c0)) =
     fst (v_checkEquivalence vtable c0)) ->
  verdictOf (run vtable start stop fuel (set_qc2 q c) st) =
  verdictOf (run vtable start stop fuel c st).
Proof.
  intros Hverdict. unfold run.
  change (initialize (v_initializeTask vtable) (set_qc2 q c))
    with (set_qc2 q (initialize (v_initializeTask vtable) c)).
  rewrite execute_set_qc2.
  destruct (execute fuel (initialize (v_initializeTask vtable) c) st)
    as [[[c1 st1] | f] |]; try reflexivity.
  change (postprocess (finish (set_qc2 q c1)))
    with (set_qc2 q (postprocess (finish c1))).
  specialize (Hverdict (postprocess (finish c1))).
  destruct (v_checkEquivalence vtable (set_qc2 q (postprocess (finish c1)))).
  destruct (v_checkEquivalence vtable (postprocess (finish c1))).
  simpl in *. now subst.
Qed.

(** Two task managers that are equal stay equal under a scheme that asks
    the same number of gates of both. *)
Lemma execute_lockstep fuel :
  (forall tm : TaskManager T,
     fst (OneToOne_call T tm tm) = snd (OneToOne_call T tm tm)) ->
  forall c st c' st',
    inLockstep c ->
    execute fuel c st = Some (Ok (c', st')) -> inLockstep c'.
Proof.
  intros Hsame.
  induction fuel as [| fuel IH]; intros c st c' st' Hinv Hrun.
  - simpl in Hrun. destruct (bothUnfinished c); [discriminate |].
    now injection Hrun as <- <-.
  - destruct (bothUnfinished c) eqn:Hgo.
    + rewrite (execute_iteration _ _ _ Hgo) in Hrun.
      assert (Hinv' : inLockstep (skipSwaps c)).
      { destruct Hinv as [Htm Hscheme]. split; simpl; [now rewrite Htm |].
        exact Hscheme. }
      destruct (bothUnfinished (skipSwaps c)).
      * destruct (applyScheme (skipSwaps c) st) as [[c1 st1] | f] eqn:Happly;
          [| discriminate].
        apply (IH c1 st1 c' st'); [| exact Hrun].
        destruct Hinv' as [Htm Hscheme].
        unfold applyScheme in Happly. rewrite Hscheme, Htm in Happly.
        simpl in Happly.
        specialize (Hsame (taskManager2 (skipSwaps c))).
        destruct (OneToOne_call T _ _) as [a1 a2]. simpl in *. subst a2.
        injection Happly as <- <-. split; reflexivity.
      * now injection Hrun as <- <-.
    + rewrite (execute_exit _ _ _ Hgo) in Hrun. now injection Hrun as <- <-.
Qed.

End AnyFlavour.

(** What the constructor of the simulation checker returns. *)
Lemma simulation_new_Ok qc1 qc2 configuration this :
  DDSimulationChecker.new qc1 qc2 configuration = Ok this ->
  exists base,
    EquivalenceChecker_new VectorDD qc1 qc2 configuration = Ok base /\
    this = DDSimulationChecker.mk base (makeZeroState (nqubits base)).
Proof.
  unfold DDSimulationChecker.new.
  destruct (EquivalenceChecker_new VectorDD qc1 qc2 configuration)
    as [base | f]; simpl; [| discriminate].
  intros Hthis. injection Hthis as <-. now exists base.
Qed.

(** X9.  The verdict of a simulation run does not depend on the gates of
    the second circuit: two checkers built for the same first circuit, the
    same configuration and second circuits of the same width run to the same
    outcome, whatever the second circuits contain. *)
Theorem simulation_verdict_ignores_second_circuit qc1 qc2 qc2' configuration
    this this' start stop fuel st :
  getNqubits qc2 = getNqubits qc2' ->
  DDSimulationChecker.new qc1 qc2 configuration = Ok this ->
  DDSimulationChecker.new qc1 qc2' configuration = Ok this' ->
  verdictOf (run (DDSimulationChecker.vtable this) start stop fuel
               (DDSimulationChecker.base this) st) =
  verdictOf (run (DDSimulationChecker.vtable this') start stop fuel
               (DDSimulationChecker.base this') st).
Proof.
  intros Hwidth Hnew Hnew'.
  apply simulation_new_Ok in Hnew as (base & Hbase & ->).
  apply simulation_new_Ok in Hnew' as (base' & Hbase' & ->).
  apply EquivalenceChecker_new_Ok in Hbase as (a & Ha & ->).
  apply EquivalenceChecker_new_Ok in Hbase' as (a' & Ha' & ->).
  assert (a' = a) by congruence. subst a'.
  rewrite <- Hwidth. simpl.
  set (width := Nat.max (getNqubits qc1) (getNqubits qc2)).
  set (c := mkChecker qc1 qc2 width (make_unique_Package width)
              (TaskManager_new VectorDD qc1 (make_unique_Package width))
              (TaskManager_new VectorDD qc1 (make_unique_Package width))
              configuration a 0 0%float).
  symmetry.
  exact (run_set_qc2
           (DDSimulationChecker.vtable
              (DDSimulationChecker.mk c (makeZeroState width)))
           qc2' start stop fuel c st (fun _ => eq_refl)).
Qed.

(** X10.  Because both task managers walk the first circuit, a simulation
    run under the one-to-one scheme, which asks the same number of gates of
    both, compares a state with itself: the verdict is [Equivalent] or
    [EquivalentUpToGlobalPhase], never [NotEquivalent], for every pair of
    circuits; it is [Equivalent] when the package finds every weight
    approximately equal to itself. *)
Theorem simulation_one_to_one_never_NotEquivalent qc1 qc2 configuration this
    start stop fuel st verdict c' st' :
  scheme (application configuration) = OneToOne_t ->
  (forall tm : TaskManager VectorDD,
     fst (OneToOne_call VectorDD tm tm) = snd (OneToOne_call VectorDD tm tm)) ->
  DDSimulationChecker.new qc1 qc2 configuration = Ok this ->
  run (DDSimulationChecker.vtable this) start stop fuel
      (DDSimulationChecker.base this) st = Some (Ok (verdict, c', st')) ->
  (verdict = Equivalent \/ verdict = EquivalentUpToGlobalPhase) /\
  ((forall weight, approximatelyEquals weight weight = true) ->
   verdict = Equivalent).
Proof.
  intros Hscheme Hsame Hnew Hrun.
  apply simulation_new_Ok in Hnew as (base & Hbase & ->).
  apply EquivalenceChecker_new_Ok in Hbase as (a & Ha & ->).
  unfold makeApplicationScheme in Ha. rewrite Hscheme in Ha.
  cbv zeta in Ha. injection Ha as <-.
  unfold run in Hrun.
  match type of Hrun with
  | match execute fuel ?c0 st with _ => _ end = _ =>
      assert (Hstart : inLockstep c0) by (split; reflexivity);
      destruct (execute fuel c0 st) as [[[c1 st1] | f] |] eqn:Hexec;
      try discriminate;
      assert (Hend : inLockstep c1)
        by (eapply execute_lockstep; eassumption);
      destruct Hend as [Htm _]
  end.
  simpl in Hrun. injection Hrun as <- _ _.
  rewrite Htm. unfold equals. rewrite Nat.eqb_refl, weightVerdict_cases.
  split.
  - destruct (approximatelyEquals _ _); auto.
  - intros Hrefl. now rewrite Hrefl.
Qed.


(** X12.  After construction, [setRandomInitialState] can only narrow the
    member [nqubits]: it never exceeds the width the package and the zero
    state were created for, which stays the larger width of the two
    circuits.  Calling it again changes nothing of the base class any
    more. *)
Theorem setRandomInitialState_narrows_nqubits qc1 qc2 configuration this
    (generator generator' : StateGenerator) :
  DDSimulationChecker.new qc1 qc2 configuration = Ok this ->
  let this' := fst (DDSimulationChecker.setRandomInitialState generator this) in
  let this'' :=
    fst (DDSimulationChecker.setRandomInitialState generator' this') in
  nqubits (DDSimulationChecker.base this)
    = Nat.max (getNqubits qc1) (getNqubits qc2) /\
  nqubits (DDSimulationChecker.base this')
    <= nqubits (DDSimulationChecker.base this) /\
  dd (DDSimulationChecker.base this')
    = make_unique_Package (nqubits (DDSimulationChecker.base this)) /\
  DDSimulationChecker.base this'' = DDSimulationChecker.base this'.
Proof.
  intros Hnew.
  apply simulation_new_Ok in Hnew as (base & Hbase & ->).
  apply EquivalenceChecker_new_Ok in Hbase as (a & Ha & ->).
  cbv zeta. unfold DDSimulationChecker.setRandomInitialState. simpl.
  destruct (generateRandomState generator _ _ _ _) as [state g1]. simpl.
  destruct (generateRandomState generator' _ _ _ _) as [state' g2]. simpl.
  repeat split.
  unfold getNqubitsWithoutAncillae, getNqubits. lia.
Qed.

End SimulationRuns.

(** ** The verdicts of [equals] *)

Section EqualsFurther.
Context `{Package}.
Variable configuration : Configuration.

(** No magnitude is below a threshold that is not positive (zero, negative
    or not a number). *)
Lemma abs_not_below (x threshold : float) :
  ltb 0%float threshold = false -> ltb (abs x) threshold = false.
Proof.
  rewrite !FloatAxioms.ltb_spec, FloatAxioms.abs_spec.
  change (FloatOps.Prim2SF 0%float) with (SpecFloat.S754_zero false).
  destruct (FloatOps.Prim2SF x) as [sx | sx | | sx mx ex],
           (FloatOps.Prim2SF threshold) as [st | st | | st mt et];
    simpl; try reflexivity; try discriminate;
    destruct st; simpl; try reflexivity; discriminate.
Qed.

(** X13.  On matrix diagrams [equals] never answers
    [EquivalentUpToPhase]; the choice between [Equivalent] and
    [EquivalentUpToGlobalPhase] is made by the top edge weights alone, on
    either path; and [NotEquivalent] is only ever said of diagrams with
    distinct nodes. *)
Theorem equals_matrix_verdicts (e f : DD MatrixDD) :
  let v := equals configuration e f in
  v <> EquivalentUpToPhase /\
  (v = Equivalent -> approximatelyEquals (w e) (w f) = true) /\
  (v = EquivalentUpToGlobalPhase -> approximatelyEquals (w e) (w f) = false) /\
  (v = NotEquivalent -> p e <> p f).
Proof.
  cbv zeta. unfold equals, equalsMatrix. cbv zeta.
  rewrite !weightVerdict_cases.
  destruct (Nat.eqb_spec (p e) (p f)) as [Heq | Hne];
    repeat match goal with
           | |- context [if ?b then _ else _] => destruct b eqn:?
           end;
    repeat split; intros; try discriminate; try congruence.
Qed.

(** X14.  On vector diagrams [EquivalentUpToGlobalPhase] is only ever
    answered through the shared fast path, for diagrams on the same node
    whose weights differ; [EquivalentUpToPhase] and [NotEquivalent] are only
    ever said of diagrams with distinct nodes; and diagrams on the same node
    are never told apart by the inner product. *)
Theorem equals_vector_verdicts (e f : DD VectorDD) :
  let v := equals configuration e f in
  (v = EquivalentUpToGlobalPhase ->
   p e = p f /\ approximatelyEquals (w e) (w f) = false) /\
  (v = EquivalentUpToPhase -> p e <> p f) /\
  (v = NotEquivalent -> p e <> p f) /\
  (p e = p f -> v = Equivalent \/ v = EquivalentUpToGlobalPhase).
Proof.
  cbv zeta. unfold equals, equalsVector. cbv zeta.
  rewrite !weightVerdict_cases.
  destruct (Nat.eqb_spec (p e) (p f)) as [Heq | Hne];
    repeat match goal with
           | |- context [if ?b then _ else _] => destruct b eqn:?
           end;
    repeat split; intros; try discriminate; try congruence; auto.
Qed.

(** X15.  The numerical fall-back for vectors needs a positive threshold:
    with a [fidelityThreshold] that is zero, negative or not a number, two
    vector diagrams on distinct nodes are [NotEquivalent] whatever their
    inner product is. *)
Theorem equals_vector_needs_positive_threshold (e f : DD VectorDD) :
  p e <> p f ->
  ltb 0%float (fidelityThreshold (simulation configuration)) = false ->
  equals configuration e f = NotEquivalent.
Proof.
  intros Hne Hthreshold.
  rewrite (equals_distinct_vector _ _ _ Hne).
  unfold equalsVector. cbv zeta.
  now rewrite !(abs_not_below _ Hthreshold).
Qed.

End EqualsFurther.

(** ** Evaluations of the further properties on the instance *)

Section FurtherWitnesses.
Import XStrings.
Import Lookahead.

(** [evaluated name term] evaluates [term] and names what it returns. *)
Ltac evaluated name term :=
  let v := eval vm_compute in term in
  match v with
  | Ok ?a => pose (name := a)
  | Some (Ok ?a) => pose (name := a)
  end.

Lemma lookahead_larger_left_takes_side2_witness :
  internalState leftHeavy = linked /\ package leftHeavy = linked /\
  size (multiply (cell leftHeavy) (getInverseDD (taskManager2 leftHeavy)))
    < size (multiply (getDD (taskManager1 leftHeavy)) (cell leftHeavy)) /\
  exists s',
    Lookahead.call leftHeavy = Ok ((0, 0), s') /\
    cell s' = mkEdge MatrixDD 0 true /\
    cursor (taskManager1 s') = 0 /\ cursor (taskManager2 s') = 1.
Proof.
  split; [reflexivity |]. split; [reflexivity |].
  assert (Hlarger :
    size (multiply (cell leftHeavy) (getInverseDD (taskManager2 leftHeavy)))
    < size (multiply (getDD (taskManager1 leftHeavy)) (cell leftHeavy)))
    by (vm_compute; lia).
  split; [exact Hlarger |].
  destruct (lookahead_larger_left_takes_side2 leftHeavy eq_refl eq_refl Hlarger)
    as (s' & Hcall & Htm1 & _ & Hunfinished & _).
  destruct (Hunfinished eq_refl) as (Hcell & Htm2 & _).
  exists s'. split; [exact Hcall |].
  rewrite Hcell, Htm1, Htm2. repeat split.
Defined.

Lemma lookahead_keeps_smaller_product_witness :
  internalState atStart = linked /\ package atStart = linked /\
  finished (taskManager1 atStart) = false /\
  finished (taskManager2 atStart) = false /\
  exists s',
    Lookahead.call atStart = Ok ((0, 0), s') /\ size (cell s') = 2.
Proof.
  repeat (split; [reflexivity |]).
  destruct (lookahead_keeps_smaller_product atStart eq_refl eq_refl eq_refl
                                            eq_refl)
    as (s' & Hcall & Hsize & _).
  exists s'. split; [exact Hcall | exact Hsize].
Defined.

Lemma lookahead_cache_after_call_witness :
  exists result s',
    Lookahead.call atStart = Ok (result, s') /\
    cached1 s' = false /\ cachedCount s' = 1.
Proof.
  evaluated answer (Lookahead.call atStart).
  exists (fst answer), (snd answer).
  assert (Hcall : Lookahead.call atStart = Ok (fst answer, snd answer))
    by (vm_compute; reflexivity).
  split; [exact Hcall |]. split; [reflexivity |].
  exact (proj2 (lookahead_cache_after_call atStart Hcall) eq_refl eq_refl).
Defined.


Lemma lookahead_links_survive_witness :
  exists result s',
    Lookahead.call atStart = Ok (result, s') /\
    internalState s' = linked /\ package s' = linked.
Proof.
  evaluated answer (Lookahead.call atStart).
  exists (fst answer), (snd answer).
  assert (Hcall : Lookahead.call atStart = Ok (fst answer, snd answer))
    by (vm_compute; reflexivity).
  split; [exact Hcall |].
  destruct (lookahead_links_survive atStart Hcall) as (Hs & Hp & _).
  split; [exact Hs | exact Hp].
Defined.

Lemma constructor_throws_only_for_lookahead_on_vectors_witness :
  raises (EquivalenceChecker_new VectorDD oneX twoX withLookahead)
         UnsupportedSchemeForDDType /\
  ~ raises (EquivalenceChecker_new MatrixDD oneX twoX withLookahead)
           UnsupportedSchemeForDDType /\
  ~ raises (EquivalenceChecker_new VectorDD oneX twoX defaults)
           UnsupportedSchemeForDDType.
Proof.
  split; [| split].
  - apply (proj1 (constructor_throws_only_for_lookahead_on_vectors
                    VectorDD oneX twoX withLookahead)).
    split; reflexivity.
  - intros Hraises.
    apply (proj1 (constructor_throws_only_for_lookahead_on_vectors
                    MatrixDD oneX twoX withLookahead)) in Hraises.
    destruct Hraises as [Hno _]. discriminate Hno.
  - intros Hraises.
    apply (proj1 (constructor_throws_only_for_lookahead_on_vectors
                    VectorDD oneX twoX defaults)) in Hraises.
    destruct Hraises as [_ Hno]. discriminate Hno.
Defined.

Lemma linked_lookahead_never_fails_witness :
  exists c c' st',
    EquivalenceChecker_new MatrixDD twoX twoX withLookahead = Ok c /\
    execute 5
      (set_applicationScheme
         (DDAlternatingChecker.linkScheme (applicationScheme c)) c)
      emptyStore = Some (Ok (c', st')) /\
    exists m',
      applicationScheme c' = LookaheadApplicationScheme m' /\
      the_internalState m' = linked /\ the_package m' = linked.
Proof.
  evaluated c (EquivalenceChecker_new MatrixDD twoX twoX withLookahead).
  evaluated after
    (execute 5
       (set_applicationScheme
          (DDAlternatingChecker.linkScheme (applicationScheme c)) c)
       emptyStore).
  exists c, (fst after), (snd after).
  split; [reflexivity |].
  assert (Hrun :
    execute 5
      (set_applicationScheme
         (DDAlternatingChecker.linkScheme (applicationScheme c)) c)
      emptyStore = Some (Ok (fst after, snd after)))
    by (vm_compute; reflexivity).
  split; [exact Hrun |].
  exact (proj1 (proj2 (linked_lookahead_never_fails 5
                   (set_applicationScheme
                      (DDAlternatingChecker.linkScheme (applicationScheme c)) c)
                   emptyStore eq_refl eq_refl eq_refl))
               _ _ Hrun).
Defined.

Lemma unlinked_lookahead_fails_at_first_call_witness :
  exists c f,
    EquivalenceChecker_new MatrixDD twoX twoX withLookahead = Ok c /\
    execute 1 c emptyStore = Some (Err f) /\
    errorKind f = Some UninitializedScheme.
Proof.
  evaluated c (EquivalenceChecker_new MatrixDD twoX twoX withLookahead).
  destruct (unlinked_lookahead_fails_at_first_call 0 c emptyStore
              eq_refl (or_introl eq_refl) eq_refl eq_refl eq_refl eq_refl)
    as (f & Hrun & Hkind).
  exists c, f. split; [reflexivity |]. split; [exact Hrun | exact Hkind].
Defined.

Lemma simulation_verdict_ignores_second_circuit_witness :
  exists this this',
    getNqubits oneX = getNqubits threeX /\
    DDSimulationChecker.new twoX oneX defaults = Ok this /\
    DDSimulationChecker.new twoX threeX defaults = Ok this' /\
    verdictOf (run (DDSimulationChecker.vtable this) 0 0 3
                 (DDSimulationChecker.base this) emptyStore)
      = Some (Ok Equivalent) /\
    verdictOf (run (DDSimulationChecker.vtable this') 0 0 3
                 (DDSimulationChecker.base this') emptyStore)
      = Some (Ok Equivalent).
Proof.
  evaluated this (DDSimulationChecker.new twoX oneX defaults).
  evaluated this' (DDSimulationChecker.new twoX threeX defaults).
  exists this, this'.
  split; [reflexivity |]. split; [reflexivity |]. split; [reflexivity |].
  assert (Hfirst :
    verdictOf (run (DDSimulationChecker.vtable this) 0 0 3
                 (DDSimulationChecker.base this) emptyStore)
    = Some (Ok Equivalent)) by (vm_compute; reflexivity).
  split; [exact Hfirst |].
  exact (eq_trans
           (eq_sym (simulation_verdict_ignores_second_circuit
                      twoX oneX threeX defaults (this:=this) (this':=this')
                      0 0 3 emptyStore eq_refl eq_refl eq_refl))
           Hfirst).
Defined.

Lemma simulation_one_to_one_never_NotEquivalent_witness :
  exists this verdict c' st',
    scheme (application defaults) = OneToOne_t /\
    DDSimulationChecker.new oneX threeX defaults = Ok this /\
    run (DDSimulationChecker.vtable this) 0 0 2
        (DDSimulationChecker.base this) emptyStore
      = Some (Ok (verdict, c', st')) /\
    verdict = Equivalent.
Proof.
  evaluated this (DDSimulationChecker.new oneX threeX defaults).
  evaluated outcome (run (DDSimulationChecker.vtable this) 0 0 2
                         (DDSimulationChecker.base this) emptyStore).
  exists this, (fst (fst outcome)), (snd (fst outcome)), (snd outcome).
  split; [reflexivity |]. split; [reflexivity |].
  assert (Hrun :
    run (DDSimulationChecker.vtable this) 0 0 2
        (DDSimulationChecker.base this) emptyStore
    = Some (Ok (fst (fst outcome), snd (fst outcome), snd outcome)))
    by (vm_compute; reflexivity).
  split; [exact Hrun |].
  assert (Hsame : forall tm : TaskManager VectorDD,
            fst (OneToOne_call VectorDD tm tm)
            = snd (OneToOne_call VectorDD tm tm))
    by (intros tm; reflexivity).
  apply (proj2 (simulation_one_to_one_never_NotEquivalent
                  oneX threeX defaults 0 0 2 emptyStore
                  eq_refl Hsame eq_refl Hrun)).
  intros weight. destruct weight; reflexivity.
Defined.


Lemma setRandomInitialState_narrows_nqubits_witness :
  exists this,
    DDSimulationChecker.new withAncilla oneX defaults = Ok this /\
    nqubits (DDSimulationChecker.base this) = 3 /\
    nqubits (DDSimulationChecker.base
               (fst (DDSimulationChecker.setRandomInitialState
                       freshGenerator this))) = 2 /\
    dd (DDSimulationChecker.base
          (fst (DDSimulationChecker.setRandomInitialState
                  freshGenerator this))) = make_unique_Package 3.
Proof.
  evaluated this (DDSimulationChecker.new withAncilla oneX defaults).
  exists this. split; [reflexivity |].
  destruct (setRandomInitialState_narrows_nqubits withAncilla oneX defaults
              freshGenerator freshGenerator (this:=this) eq_refl)
    as (Hwidth & _ & Hdd & _).
  split; [exact Hwidth |]. split; [reflexivity |].
  rewrite Hdd, Hwidth. reflexivity.
Defined.

Lemma equals_matrix_verdicts_witness :
  let e : DD MatrixDD := mkEdge MatrixDD 1 true in
  let f : DD MatrixDD := mkEdge MatrixDD 2 true in
  equals defaults e f = NotEquivalent /\ p e <> p f.
Proof.
  intros e f. split; [reflexivity |].
  apply (proj2 (proj2 (proj2 (equals_matrix_verdicts defaults e f)))).
  reflexivity.
Defined.

Lemma equals_vector_verdicts_witness :
  let e : DD VectorDD := mkEdge VectorDD 3 true in
  let f : DD VectorDD := mkEdge VectorDD 3 false in
  equals defaults e f = EquivalentUpToGlobalPhase /\
  p e = p f /\ approximatelyEquals (w e) (w f) = false.
Proof.
  intros e f. split; [reflexivity |].
  apply (proj1 (equals_vector_verdicts defaults e f)). reflexivity.
Defined.

Lemma equals_vector_needs_positive_threshold_witness :
  let e : DD VectorDD := mkEdge VectorDD 0 true in
  let f : DD VectorDD := mkEdge VectorDD 3 true in
  p e <> p f /\
  ltb 0%float (fidelityThreshold (simulation withZeroThreshold)) = false /\
  equals withZeroThreshold e f = NotEquivalent.
Proof.
  intros e f.
  assert (Hne : p e <> p f) by (simpl; lia).
  split; [exact Hne |]. split; [reflexivity |].
  exact (equals_vector_needs_positive_threshold withZeroThreshold e f Hne
                                                eq_refl).
Defined.

End FurtherWitnesses.
